(** * The ethics backend: a shallow embedding of [app.py]

    The Flask application of the repository is embedded as functions over a
    small fragment of the Python runtime: decoded JSON values, exceptions,
    [str], [repr] and [str.format], and a trace monad that records the log
    calls and the calls to the hosted model in the order the handlers make
    them. *)

From Stdlib Require Import ZArith String Ascii List Bool Lia.
From Stdlib Require Import Floats.SpecFloat.
From stdpp Require Import base option list strings pretty gmap.

Set Warnings "-register-all".
Local Open Scope Z_scope.

(** * A fragment of the Python runtime *)

Module Py.

(** An exception object: its class and what [str(e)] returns. *)
Inductive exn : Type := Exception (cls : string) (msg : string).

Definition exn_class (e : exn) : string := let 'Exception c _ := e in c.
Definition str_exn (e : exn) : string := let 'Exception _ m := e in m.

(** The result of evaluating an expression: a value, or a raised exception. *)
Inductive outcome (A : Type) : Type :=
| Return (a : A)
| Raise (e : exn).
Arguments Return {A} a.
Arguments Raise {A} e.

(** What [request.json] decodes to: [None], [bool], [int], [float], [str],
    [list] and [dict].  A [dict] keeps its keys in insertion order, which
    [repr] shows.  A [str] is a sequence of code points below 256. *)
Inductive json : Type :=
| JNull
| JBool (b : bool)
| JInt (n : Z)
| JFloat (f : spec_float)
| JString (s : string)
| JList (l : list json)
| JObject (o : list (string * json)).

(** Truth value testing, as [not x] and [if x] apply it. *)
Definition truthy (v : json) : bool :=
  match v with
  | JNull => false
  | JBool b => b
  | JInt n => negb (n =? 0)
  | JFloat (S754_zero _) => false
  | JFloat _ => true
  | JString s => negb (String.eqb s "")
  | JList l => negb (Nat.eqb (List.length l) 0)
  | JObject o => negb (Nat.eqb (List.length o) 0)
  end.

(** [type(v).__name__] *)
Definition type_name (v : json) : string :=
  match v with
  | JNull => "NoneType"
  | JBool _ => "bool"
  | JInt _ => "int"
  | JFloat _ => "float"
  | JString _ => "str"
  | JList _ => "list"
  | JObject _ => "dict"
  end.

(** [d.get(key)] on a [dict]: the value, or [None]. *)
Fixpoint dict_get (o : list (string * json)) (key : string) : json :=
  match o with
  | [] => JNull
  | (k, v) :: rest => if String.eqb k key then v else dict_get rest key
  end.

(** [key in d] *)
Fixpoint dict_has (o : list (string * json)) (key : string) : bool :=
  match o with
  | [] => false
  | (k, _) :: rest => String.eqb k key || dict_has rest key
  end.

(** [data.get(key)] on any decoded value: only a [dict] has the method. *)
Definition py_get (data : json) (key : string) : outcome json :=
  match data with
  | JObject o => Return (dict_get o key)
  | _ => Raise (Exception "AttributeError"
                  ("'" +:+ type_name data +:+ "' object has no attribute 'get'"))
  end.

(** The value of [data.get(key)] where the call returns. *)
Definition dict_get_of (data : json) (key : string) : json :=
  match data with
  | JObject o => dict_get o key
  | _ => JNull
  end.

(** ** [repr] and [str] *)

Definition LF : string := String "010"%char EmptyString.
Definition dquote : ascii := "034"%char.
Definition squote : ascii := "039"%char.
Definition backslash : ascii := "092"%char.

Definition hex_digit (n : N) : ascii :=
  match n with
  | 0 => "0" | 1 => "1" | 2 => "2" | 3 => "3" | 4 => "4" | 5 => "5"
  | 6 => "6" | 7 => "7" | 8 => "8" | 9 => "9" | 10 => "a" | 11 => "b"
  | 12 => "c" | 13 => "d" | 14 => "e" | _ => "f"
  end%char%N.

Fixpoint str_contains (c : ascii) (s : string) : bool :=
  match s with
  | EmptyString => false
  | String d r => Ascii.eqb c d || str_contains c r
  end.

(** One character of [repr(s)] inside the quote [q]. *)
Definition repr_char (q c : ascii) : string :=
  let n := N_of_ascii c in
  if Ascii.eqb c q || Ascii.eqb c backslash then String backslash (String c "")
  else if (n =? 9)%N then String backslash "t"
  else if (n =? 10)%N then String backslash "n"
  else if (n =? 13)%N then String backslash "r"
  else if (n <? 32)%N || ((127 <=? n)%N && (n <=? 160)%N) || (n =? 173)%N
  then String backslash (String "x" (String (hex_digit (n / 16)) (String (hex_digit (n mod 16)) "")))
  else String c "".

Fixpoint repr_chars (q : ascii) (s : string) : string :=
  match s with
  | EmptyString => ""
  | String c r => repr_char q c +:+ repr_chars q r
  end.

(** [repr] of a [str]: single quotes, unless the text has a single quote and
    no double quote. *)
Definition repr_str (s : string) : string :=
  let q := if str_contains squote s && negb (str_contains dquote s)
           then dquote else squote in
  String q (repr_chars q s +:+ String q "").

(** [repr] of a pair of strings, as for the entries of [STEPS]. *)
Definition repr_tuple2 (p : string * string) : string :=
  "(" +:+ repr_str p.1 +:+ ", " +:+ repr_str p.2 +:+ ")".

Section Repr.

(** [float.__repr__], the shortest decimal that reads back as the same
    double; part of the interpreter, taken as given. *)
Variable float_repr : spec_float -> string.

Fixpoint py_repr (v : json) : string :=
  match v with
  | JNull => "None"
  | JBool true => "True"
  | JBool false => "False"
  | JInt n => pretty n
  | JFloat f => float_repr f
  | JString s => repr_str s
  | JList l => "[" +:+ String.concat ", " (map py_repr l) +:+ "]"
  | JObject o =>
      "{" +:+ String.concat ", "
                (map (fun kv => repr_str kv.1 +:+ ": " +:+ py_repr kv.2) o)
          +:+ "}"
  end.

(** [str(v)], which is also [format(v, '')]: the text itself for a [str],
    [repr] for the other decoded values. *)
Definition py_str (v : json) : string :=
  match v with
  | JString s => s
  | _ => py_repr v
  end.

End Repr.

(** ** [str.format] with the one keyword argument [prompt]

    The scanner of a format string: literal text, the doubled braces, and
    replacement fields.  A field is looked up by its whole text, so the
    fragment covers plain names; conversions, format specifications and
    attribute or index access do not occur in the templates of the
    application. *)
Inductive fmt_state : Type :=
| FText
| FOpen
| FField (name : string)
| FClose.

Definition is_digit (c : ascii) : bool :=
  let n := N_of_ascii c in (48 <=? n)%N && (n <=? 57)%N.

Fixpoint all_digits (s : string) : bool :=
  match s with
  | EmptyString => true
  | String c r => is_digit c && all_digits r
  end.

(** The value of the field [name] when the call passes only [prompt=value]. *)
Definition format_field (name value : string) : outcome string :=
  if String.eqb name "prompt" then Return value
  else if all_digits name then
    Raise (Exception "IndexError"
             ("Replacement index " +:+ (if String.eqb name "" then "0" else name)
              +:+ " out of range for positional args tuple"))
  else Raise (Exception "KeyError" (repr_str name)).

Definition emit (c : ascii) (r : outcome string) : outcome string :=
  match r with
  | Return s => Return (String c s)
  | Raise e => Raise e
  end.

Definition emit_str (p : string) (r : outcome string) : outcome string :=
  match r with
  | Return s => Return (p +:+ s)
  | Raise e => Raise e
  end.

Definition single_close : exn :=
  Exception "ValueError" "Single '}' encountered in format string".

Fixpoint format_scan (st : fmt_state) (value : string) (t : string)
  : outcome string :=
  match t with
  | EmptyString =>
      match st with
      | FText => Return ""
      | FOpen => Raise (Exception "ValueError" "Single '{' encountered in format string")
      | FField _ => Raise (Exception "ValueError" "expected '}' before end of string")
      | FClose => Raise single_close
      end
  | String c r =>
      match st with
      | FText =>
          if Ascii.eqb c "{" then format_scan FOpen value r
          else if Ascii.eqb c "}" then format_scan FClose value r
          else emit c (format_scan FText value r)
      | FOpen =>
          if Ascii.eqb c "{" then emit c (format_scan FText value r)
          else if Ascii.eqb c "}" then
            match format_field "" value with
            | Return v => emit_str v (format_scan FText value r)
            | Raise e => Raise e
            end
          else format_scan (FField (String c "")) value r
      | FField name =>
          if Ascii.eqb c "}" then
            match format_field name value with
            | Return v => emit_str v (format_scan FText value r)
            | Raise e => Raise e
            end
          else if Ascii.eqb c "{" then
            Raise (Exception "ValueError" "unexpected '{' in field name")
          else format_scan (FField (name +:+ String c "")) value r
      | FClose =>
          if Ascii.eqb c "}" then emit c (format_scan FText value r)
          else Raise single_close
      end
  end.

(** [template.format(prompt=value)] for a value already turned into text. *)
Definition str_format (template value : string) : outcome string :=
  format_scan FText value template.

End Py.

(** * Effects: the trace of a request *)

Module Eff.
Import Py.

(** The handle that [anthropic.Anthropic(api_key=...)] builds. *)
Record Anthropic : Type := { api_key : string }.

(** One entry of the [messages] argument. *)
Record message : Type := { role : string; content : string }.

(** The keyword arguments of [messages.create]. *)
Record create_args : Type := {
  model : string;
  max_tokens : Z;
  temperature : spec_float;
  system : option string;
  messages : list message
}.

(** One element of the [content] of a reply: an object of some class that
    may or may not have a [text] attribute. *)
Record block : Type := { block_class : string; text : option string }.

Definition TextBlock (s : string) : block :=
  {| block_class := "TextBlock"; text := Some s |}.

(** The [content] attribute of a reply: a list of blocks, or a plain text. *)
Inductive reply_content : Type :=
| ContentList (blocks : list block)
| ContentStr (s : string).

(** The logging methods the application calls. *)
Inductive level : Type := INFO | WARNING | ERROR | EXCEPTION.

(** What a handler does besides computing its response. *)
Inductive event : Type :=
| Log (logger_name : string) (lvl : level) (msg : string)
| Stdout (line : string)
| MessagesCreate (client : Anthropic) (args : create_args).

(** A computation: the events it produced, and its value or exception. *)
Definition M (A : Type) : Type := list event * outcome A.

Definition trace {A} (m : M A) : list event := m.1.
Definition result {A} (m : M A) : outcome A := m.2.

#[global] Instance M_ret : MRet M := fun A a => ([], Return a).

#[global] Instance M_bind : MBind M := fun A B f m =>
  match m with
  | (t, Return a) => let '(t', r) := f a in (t ++ t', r)
  | (t, Raise e) => (t, Raise e)
  end.

Definition raise {A} (e : exn) : M A := ([], Raise e).
Definition tell (ev : event) : M unit := ([ev], Return tt).
Definition lift {A} (r : outcome A) : M A := ([], r).

(** [try: body except Exception as e: handler e] *)
Definition try_except {A} (body : M A) (handler : exn -> M A) : M A :=
  match body with
  | (t, Return a) => (t, Return a)
  | (t, Raise e) => let '(t', r) := handler e in (t ++ t', r)
  end.

(** A list comprehension whose element expression may raise. *)
Fixpoint mapM {A B} (f : A -> M B) (l : list A) : M (list B) :=
  match l with
  | [] => mret []
  | x :: r => y ← f x; ys ← mapM f r; mret (y :: ys)
  end.

(** The root logger ([logging.info] and the like) and the module's
    [logger = logging.getLogger('gunicorn.error')]. *)
Definition logging (lvl : level) (msg : string) : M unit := tell (Log "root" lvl msg).
Definition logger (lvl : level) (msg : string) : M unit :=
  tell (Log "gunicorn.error" lvl msg).

(** [print(a, b)] *)
Definition print2 (a b : string) : M unit := tell (Stdout (a +:+ " " +:+ b)).

(** The calls to the hosted model among the events, in order. *)
Definition calls (t : list event) : list create_args :=
  omap (fun ev => match ev with MessagesCreate _ a => Some a | _ => None end) t.

(** ** Responses *)

Inductive payload : Type :=
| PJson (j : json)
| PFile (data : string).

Record response : Type := { body : payload; status : Z }.

(** [jsonify(v)]: a JSON response with the default status. *)
Definition jsonify (v : json) : response := {| body := PJson v; status := 200 |}.

(** [return rv, code] from a view function. *)
Definition with_status (rv : response) (code : Z) : response :=
  {| body := body rv; status := code |}.

End Eff.

(** * The application *)

Module App.
Import Py Eff.

(** ** Module start *)

Section Startup.

(** [load_dotenv()]: the environment after the variables of a [.env] file,
    if there is one, have been added to it. *)
Variable load_dotenv : gmap string string -> gmap string string.

(** The top of the module, from [load_dotenv()] to [CLIENT]: the handle the
    handlers use, or the exception that ends the import. *)
Definition startup (os_environ : gmap string string) : outcome Anthropic :=
  let environ := load_dotenv os_environ in
  let API_KEY := environ !! "ANTHROPIC_API_KEY" in
  match API_KEY with
  | None =>
      Raise (Exception "ValueError"
               "Anthropic API key not found in environment variables.")
  | Some key => Return {| api_key := key |}
  end.

End Startup.

(** ** Constants *)

Definition SYSTEM_ROLE : string :=
  LF +:+
  "You are an expert in ethics conducting a comprehensive analysis of this situation. " +:+ LF +:+
  "Follow established ethical frameworks and principles. " +:+ LF +:+
  "Please keep your responses very concise and precise. " +:+ LF +:+
  "Always use markdown format for clarity (e.g., headings, code blocks, bold, > quotes, - unordered lists). " +:+ LF +:+
  "For each step, please provide a detailed analysis in the corresponding tags (<problem>, <principles>, <dimensions>, <actions>, <consequences>, or <answer>). " +:+ LF +:+
  "For example, a well-structured response for the first step might look like this: " +:+ LF +:+
  "<step_tag>" +:+ LF +:+
  "<problem>" +:+ LF +:+
  "My analysis of this step involves considering [insert relevant factors or principles]." +:+ LF +:+
  "This leads me to conclude that [insert conclusion]." +:+ LF +:+
  "</problem>" +:+ LF +:+
  "[Insert response]" +:+ LF +:+
  "</step_tag>" +:+ LF +:+
  "Please ONLY use `<answer>` tags once, ALWAYS around final response. " +:+ LF +:+
  "If you are unable to respond, reply 'incomplete' with no explanation." +:+ String dquote LF.

Definition STEPS : list (string * string) := [
  ("Identify the ethical problem or dilemma in the following situation: {prompt}.", "<problem>");
  ("Apply relevant ethical codes, principles, or frameworks to the identified problem", "<principles>");
  ("Considering the principles, determine the nature and dimensions of the ethical dilemma, considering all stakeholders and potential consequences", "<dimensions>");
  ("Given the dimensions, generate potential courses of action to address the ethical dilemma", "<actions>");
  ("For each course of action, what are the potential consequences, and how do they align with the principles?", "<consequences>");
  ("Based on the analysis, what is the most ethically justifiable course of action, and why does it align with the relevant principles and minimize harm to stakeholders?", "<answer>")
].

(** The literal [0.2]: the double nearest to one fifth. *)
Definition float_0_2 : spec_float := S754_finite false 7205759403792794 (-55).

Section Application.

Variable float_repr : spec_float -> string.

(** The hosted model behind [client.messages.create(...)]: the [content] of
    its reply, or the exception the call raises. *)
Variable messages_create : Anthropic -> create_args -> outcome reply_content.

(** The module-level handle built at start. *)
Variable CLIENT : Anthropic.

Definition create (client : Anthropic) (args : create_args) : M reply_content :=
  tell (MessagesCreate client args);; lift (messages_create client args).

Definition build_grader_prompt (answer rubric : json) : list message :=
  let user_content :=
    "You will be provided an answer that an assistant gave to one step (prompt) in its chain-of-thought reasoning of this ethical dilemma, and a rubric that instructs you on what makes the answer correct or incorrect." +:+ LF +:+
    "    " +:+ LF +:+
    "    Here is the answer that the assistant gave to the question." +:+ LF +:+
    "    <answer>" +:+ py_str float_repr answer +:+ "</answer>" +:+ LF +:+
    "    " +:+ LF +:+
    "    Here is the rubric on what makes the answer correct or incorrect." +:+ LF +:+
    "    <rubric>" +:+ py_str float_repr rubric +:+ "</rubric>" +:+ LF +:+
    "    " +:+ LF +:+
    "    An answer is correct if it mostly meets the rubric criteria, and otherwise it is incorrect." +:+ LF +:+
    "    First, think through whether the answer is correct or incorrect based on the rubric inside <thinking></thinking> tags. Then assign an overall score out of 100 in <score> tags. Finally, output either 'correct' if the answer is correct or 'incorrect' if the answer is incorrect inside <correctness></correctness> tags." in
  let messages := [{| role := "user"; content := user_content |}] in
  messages.

(** [b.text] *)
Definition block_text (b : block) : M string :=
  match text b with
  | Some s => mret s
  | None =>
      raise (Exception "AttributeError"
               ("'" +:+ block_class b +:+ "' object has no attribute 'text'"))
  end.

Definition get_completion (messages : reply_content) : M string :=
  match messages with
  | ContentList blocks =>
      completion ← mapM block_text blocks;
      mret (String.concat "" completion)
  | ContentStr EmptyString => mret ""
  | ContentStr _ =>
      raise (Exception "AttributeError" "'str' object has no attribute 'text'")
  end.

Definition grade_completion (output rubric : json) : M json :=
  try_except
    (let messages := build_grader_prompt output rubric in
     completion ← create CLIENT
       {| model := "claude-3-opus-20240229";
          max_tokens := 256;
          temperature := float_0_2;
          system := None;
          messages := messages |};
     completion_text ←
       match completion with
       | ContentList blocks =>
           texts ← mapM block_text blocks;
           mret (String.concat "" texts)
       | ContentStr s => mret s
       end;
     mret (JObject [("response", JString completion_text)]))
    (fun e =>
       print2 "Detailed error:" (str_exn e);;
       raise (Exception "RuntimeError" ("Error during grading: " +:+ str_exn e))).

Definition ethical_analysis (prompt : json) (anthropic_client : Anthropic)
  : M json :=
  try_except
    (step_templates ←
       mapM (fun st : string * string =>
               let '(step, tag) := st in
               lift (str_format step (py_str float_repr prompt))) STEPS;
     let combined_prompt :=
       String.concat LF
         (map (fun p : string * (string * string) =>
                 let '(step, tag) := p in step +:+ LF +:+ repr_tuple2 tag)
              (zip step_templates STEPS)) in
     response ← create anthropic_client
       {| model := "claude-3-haiku-20240307";
          max_tokens := 2048;
          temperature := float_0_2;
          system := Some SYSTEM_ROLE;
          messages := [{| role := "user"; content := combined_prompt |}] |};
     analysis_result ← get_completion response;
     mret (JObject [("analysis", JString analysis_result)]))
    (fun e =>
       logging EXCEPTION ("An unexpected error occurred: " +:+ str_exn e);;
       logger EXCEPTION ("An unexpected error occurred: " +:+ str_exn e);;
       mret (JObject [("error",
                       JObject [("message", JString (str_exn e));
                                ("type", JString "internal_server_error")])])).

(** [POST /analysis]; [request_json] is what [request.json] evaluates to. *)
Definition analyze_ethics (request_json : outcome json) : M response :=
  try_except
    (data ← lift request_json;
     situation ← lift (py_get data "situation");
     if negb (truthy situation) then
       logging ERROR "Situation not provided";;
       logger ERROR "Situation not provided";;
       mret (with_status
               (jsonify
                  (JObject [("type", JString "error");
                            ("error",
                             JObject [("type", JString "invalid_request_error");
                                      ("message", JString "Situation not provided.")])]))
               400)
     else
       logging INFO "Performing ethical analysis";;
       logger INFO "Performing ethical analysis";;
       analysis_results ← ethical_analysis situation CLIENT;
       logging INFO "Ethical analysis completed";;
       logger INFO "Ethical analysis completed";;
       mret (jsonify analysis_results))
    (fun e =>
       logging EXCEPTION ("An unexpected error occurred: " +:+ str_exn e);;
       logger EXCEPTION ("An unexpected error occurred: " +:+ str_exn e);;
       mret (with_status
               (jsonify
                  (JObject [("type", JString "error");
                            ("error",
                             JObject [("type", JString "internal_server_error");
                                      ("message", JString (str_exn e))])]))
               500)).

(** [POST /eval] *)
Definition evaluate_completion (request_json : outcome json) : M response :=
  try_except
    (data ← lift request_json;
     prompt ← lift (py_get data "prompt");
     completion ← lift (py_get data "completion");
     rubric ← lift (py_get data "rubric");
     if negb (truthy prompt) || negb (truthy completion) || negb (truthy rubric) then
       logging ERROR "Prompt, completion, or rubric not provided";;
       logger ERROR "Prompt, completion, or rubric not provided";;
       mret (with_status
               (jsonify
                  (JObject [("error",
                             JString "Prompt, completion, or rubric not provided")]))
               400)
     else
       logging INFO "Evaluating completion";;
       logger INFO "Evaluating completion";;
       result ← grade_completion completion rubric;
       logging INFO "Completion evaluation completed";;
       logger INFO "Completion evaluation completed";;
       mret (jsonify result))
    (fun e =>
       logging EXCEPTION ("An unexpected error occurred: " +:+ str_exn e);;
       logger EXCEPTION ("An unexpected error occurred: " +:+ str_exn e);;
       mret (with_status (jsonify (JObject [("error", JString (str_exn e))])) 500)).

(** [GET /api/steps]; [jsonify] writes a tuple as an array. *)
Definition get_steps : M response :=
  let steps_with_tags :=
    map (fun st : string * string =>
           let '(step, tag) := st in
           JList [JString ("<prompt>" +:+ step +:+ "</prompt>"); JString tag])
        STEPS in
  mret (jsonify (JList steps_with_tags)).

(** ** The static front end *)

(** [app.static_folder], the folder [static] under the application root. *)
Variable static_folder : string.

(** [os.path.exists] on the file system the server runs on. *)
Variable os_path_exists : string -> bool.

(** Flask's [send_from_directory(directory, path)]. *)
Variable send_from_directory : string -> string -> response.

(** [GET /] and [GET /<path:path>] *)
Definition serve (path : string) : M response :=
  logger INFO ("Serving path: " +:+ path);;
  logging INFO ("Serving path: " +:+ path);;
  if negb (String.eqb path "") && os_path_exists (static_folder +:+ "/" +:+ path) then
    mret (send_from_directory static_folder path)
  else
    logging WARNING ("Serving index.html for path: " +:+ path);;
    logger WARNING ("Serving index.html for path: " +:+ path);;
    mret (send_from_directory static_folder "index.html").

End Application.

End App.

(** * The file system and Flask's file responses

    [serve] leaves the file system to [os.path.exists] and the response to
    Flask's [send_from_directory]; both are library code, embedded here as
    they behave on a POSIX host. *)

Module Static.
Import Py Eff.

(** What a path leads to, links followed: a regular file and its content, or
    a directory. *)
Inductive node : Type :=
| File (data : string)
| Directory.

(** [s.startswith(prefix)] *)
Fixpoint startswith (prefix s : string) : bool :=
  match prefix, s with
  | EmptyString, _ => true
  | String a p, String b r => Ascii.eqb a b && startswith p r
  | String _ _, EmptyString => false
  end.

(** [s.endswith('/')] *)
Fixpoint endswith_slash (s : string) : bool :=
  match s with
  | EmptyString => false
  | String c EmptyString => Ascii.eqb c "/"
  | String _ r => endswith_slash r
  end.

(** [s.split(sep)] for a separator of one character. *)
Fixpoint str_split (sep : ascii) (s : string) : list string :=
  match s with
  | EmptyString => [""]
  | String c r =>
      let parts := str_split sep r in
      if Ascii.eqb c sep then "" :: parts
      else match parts with
           | part :: others => String c part :: others
           | [] => [String c ""]
           end
  end.

(** One turn of the loop of [posixpath.normpath]; the components kept so far
    are held last first. *)
Definition normpath_step (initial_slashes : nat) (kept : list string) (comp : string)
  : list string :=
  if String.eqb comp "" || String.eqb comp "." then kept
  else if negb (String.eqb comp "..")
          || (Nat.eqb initial_slashes 0 && Nat.eqb (List.length kept) 0)
          || match kept with
             | last :: _ => String.eqb last ".."
             | [] => false
             end
       then comp :: kept
       else match kept with
            | _ :: others => others
            | [] => []
            end.

(** [posixpath.normpath(path)] *)
Definition normpath (path : string) : string :=
  if String.eqb path "" then "."
  else
    let initial_slashes :=
      if startswith "/" path then
        if startswith "//" path && negb (startswith "///" path) then 2%nat else 1%nat
      else 0%nat in
    let comps :=
      rev (fold_left (normpath_step initial_slashes) (str_split "/" path) []) in
    let joined := String.concat "/" comps in
    let rooted :=
      match initial_slashes with
      | 0%nat => joined
      | 1%nat => "/" +:+ joined
      | _ => "//" +:+ joined
      end in
    if String.eqb rooted "" then "." else rooted.

(** [posixpath.join(a, b)] *)
Definition posix_join (a b : string) : string :=
  if startswith "/" b then b
  else if String.eqb a "" || endswith_slash a then a +:+ b
  else a +:+ "/" +:+ b.

(** Werkzeug's [safe_join(directory, filename)]: the joined path, or [None]
    for a name that would leave the directory. *)
Definition safe_join (directory filename : string) : option string :=
  let directory := if String.eqb directory "" then "." else directory in
  let filename := if String.eqb filename "" then filename else normpath filename in
  if startswith "/" filename || String.eqb filename ".." || startswith "../" filename
  then None
  else Some (posix_join directory filename).

Section Host.

(** What the host's file system has at a path. *)
Variable lookup_path : string -> option node.

(** The application root, which Flask joins in front of the path to send. *)
Variable root_path : string.

(** The page Flask sends for a [NotFound]. *)
Variable not_found_page : string.

Definition os_path_exists (p : string) : bool :=
  match lookup_path p with
  | Some _ => true
  | None => false
  end.

Definition os_path_isfile (p : string) : bool :=
  match lookup_path p with
  | Some (File _) => true
  | _ => false
  end.

(** The response to a [NotFound] raised in a view. *)
Definition not_found : response := {| body := PFile not_found_page; status := 404 |}.

(** [send_from_directory(directory, path)]: the file, whole and with status
    200, when [safe_join] lets the path through and it leads to a regular
    file; [NotFound] otherwise. *)
Definition send_from_directory (directory path : string) : response :=
  match safe_join directory path with
  | None => not_found
  | Some joined =>
      match lookup_path (posix_join root_path joined) with
      | Some (File data) => {| body := PFile data; status := 200 |}
      | _ => not_found
      end
  end.

End Host.

(** What Flask guarantees of [app.static_folder]: an absolute path that does
    not end with a slash. *)
Definition absolute_folder (d : string) : bool :=
  startswith "/" d && negb (endswith_slash d).

End Static.

(** * What the specification says, as definitions *)

Module Spec.
Import Py Eff App.

(** The template with the situation put in place of its placeholder. *)
Definition substituted (template situation : string) : string :=
  match str_format template situation with
  | Return t => t
  | Raise _ => template
  end.

(** The composed prompt in the words of the specification: for each step in
    order, the substituted template, a newline and the step's tag, all
    concatenated. *)
Definition claimed_prompt (situation : string) : string :=
  String.concat ""
    (map (fun st : string * string => substituted st.1 situation +:+ LF +:+ st.2)
         STEPS).

(** The six tags in the order the specification lists them. *)
Definition claimed_tags : list string :=
  ["<problem>"; "<principles>"; "<dimensions>"; "<actions>"; "<consequences>";
   "<answer>"].

(** The texts of the user messages handed to the hosted model, call by call. *)
Definition submitted_prompts (t : list event) : list string :=
  concat (map (fun a : create_args => map content (messages a)) (calls t)).

(** The envelope [{type, error: {type, message}}]: an object with exactly the
    fields [type] and [error], the latter an object with exactly the fields
    [type] and [message]. *)
Definition is_error_envelope (j : json) : bool :=
  match j with
  | JObject o =>
      Nat.eqb (List.length o) 2 && dict_has o "type" &&
      match dict_get o "error" with
      | JObject e =>
          dict_has o "error" && Nat.eqb (List.length e) 2 &&
          dict_has e "type" && dict_has e "message"
      | _ => false
      end
  | _ => false
  end.

(** [needle in haystack] for two strings. *)
Fixpoint is_prefix (p s : string) : bool :=
  match p, s with
  | EmptyString, _ => true
  | String a p', String b s' => Ascii.eqb a b && is_prefix p' s'
  | String _ _, EmptyString => false
  end.

Fixpoint is_substring (needle haystack : string) : bool :=
  is_prefix needle haystack ||
  match haystack with
  | EmptyString => false
  | String _ r => is_substring needle r
  end.

(** A field of a request body is missing. *)
Definition missing (o : list (string * json)) (key : string) : Prop :=
  dict_has o key = false.

(** A field of a request body is there, with a value Python takes as false. *)
Definition present_falsy (o : list (string * json)) (key : string) : Prop :=
  dict_has o key = true /\ truthy (dict_get o key) = false.

(** The keyword arguments of the two calls to the hosted model. *)
Definition analysis_kwargs (combined_prompt : string) : create_args :=
  {| model := "claude-3-haiku-20240307";
     max_tokens := 2048;
     temperature := float_0_2;
     system := Some SYSTEM_ROLE;
     messages := [{| role := "user"; content := combined_prompt |}] |}.

Definition grading_kwargs (messages : list message) : create_args :=
  {| model := "claude-3-opus-20240229";
     max_tokens := 256;
     temperature := float_0_2;
     system := None;
     messages := messages |}.

(** The text [ethical_analysis] composes from the text of the situation. *)
Definition combined_prompt (situation : string) : string :=
  String.concat LF
    (map (fun p : string * (string * string) => p.1 +:+ LF +:+ repr_tuple2 p.2)
         (zip (map (fun st : string * string => substituted st.1 situation) STEPS)
              STEPS)).

(** What a failed analysis leaves behind and returns. *)
Definition analysis_failed (c : Anthropic) (args : create_args) (e : exn) : M json :=
  ([MessagesCreate c args;
    Log "root" EXCEPTION ("An unexpected error occurred: " +:+ str_exn e);
    Log "gunicorn.error" EXCEPTION ("An unexpected error occurred: " +:+ str_exn e)],
   Return (JObject [("error",
                     JObject [("message", JString (str_exn e));
                              ("type", JString "internal_server_error")])])).

(** What a failed grading leaves behind and raises. *)
Definition grading_failed (c : Anthropic) (args : create_args) (e : exn) : M json :=
  ([MessagesCreate c args; Stdout ("Detailed error: " +:+ str_exn e)],
   Raise (Exception "RuntimeError" ("Error during grading: " +:+ str_exn e))).

(** The two log records of a caught exception. *)
Definition logged_exception (e : exn) : list event :=
  [Log "root" EXCEPTION ("An unexpected error occurred: " +:+ str_exn e);
   Log "gunicorn.error" EXCEPTION ("An unexpected error occurred: " +:+ str_exn e)].

(** The two log records of a plain message. *)
Definition logged (lvl : level) (msg : string) : list event :=
  [Log "root" lvl msg; Log "gunicorn.error" lvl msg].

(** The failure responses of [POST /analysis]. *)
Definition analysis_bad_request : response :=
  {| body := PJson (JObject [("type", JString "error");
                             ("error",
                              JObject [("type", JString "invalid_request_error");
                                       ("message", JString "Situation not provided.")])]);
     status := 400 |}.

Definition analysis_server_error (e : exn) : response :=
  {| body := PJson (JObject [("type", JString "error");
                             ("error",
                              JObject [("type", JString "internal_server_error");
                                       ("message", JString (str_exn e))])]);
     status := 500 |}.

(** The failure responses of [POST /eval]. *)
Definition eval_bad_request : response :=
  {| body := PJson (JObject [("error",
                              JString "Prompt, completion, or rubric not provided")]);
     status := 400 |}.

Definition eval_server_error (e : exn) : response :=
  {| body := PJson (JObject [("error", JString (str_exn e))]); status := 500 |}.

(** The guard of [POST /eval]. *)
Definition eval_rejects (prompt completion rubric : json) : bool :=
  negb (truthy prompt) || negb (truthy completion) || negb (truthy rubric).

(** The records one logger received, in order. *)
Definition records_of (name : string) (t : list event) : list (level * string) :=
  omap (fun ev : event =>
          match ev with
          | Log n lvl msg => if String.eqb n name then Some (lvl, msg) else None
          | _ => None
          end) t.

(** [hasattr(b, 'text')] *)
Definition has_text (b : block) : bool :=
  match text b with Some _ => true | None => false end.

End Spec.

(** * Concrete surroundings for the examples *)

Module Fixture.
Import Py Eff App.

(** Stands for [float.__repr__] where an example needs one; right on the
    values that are not finite numbers, and no example contains a float. *)
Definition float_repr (f : spec_float) : string :=
  match f with
  | S754_zero false => "0.0"
  | S754_zero true => "-0.0"
  | S754_infinity false => "inf"
  | S754_infinity true => "-inf"
  | S754_nan => "nan"
  | S754_finite _ _ _ => "1.0"
  end.

Definition CLIENT : Anthropic := {| api_key := "sk-ant-test" |}.

(** A hosted model that answers every call with the given text segments. *)
Definition answering (segments : list string)
  : Anthropic -> create_args -> outcome reply_content :=
  fun _ _ => Return (ContentList (map TextBlock segments)).

(** A hosted model whose every call raises. *)
Definition failing (e : exn) : Anthropic -> create_args -> outcome reply_content :=
  fun _ _ => Raise e.

(** A file system with the entry document, one asset and one directory of
    assets under the static folder. *)
Definition static_folder : string := "/srv/app/static".

Definition disk (p : string) : option Static.node :=
  if String.eqb p "/srv/app/static/index.html" then Some (Static.File "<!doctype html>")
  else if String.eqb p "/srv/app/static/main.js" then Some (Static.File "console.log(1)")
  else if String.eqb p "/srv/app/static/assets" then Some Static.Directory
  else if String.eqb p "/srv/app/static" then Some Static.Directory
  else if String.eqb p "/srv/app" then Some Static.Directory
  else None.

Definition root_path : string := "/srv/app".

Definition not_found_page : string := "<!doctype html><title>404 Not Found</title>".

(** No [.env] file: [load_dotenv()] leaves the environment as it is. *)
Definition load_dotenv (environ : gmap string string) : gmap string string := environ.

(** A hosted model that answers every call with the given [content]. *)
Definition replying (c : reply_content)
  : Anthropic -> create_args -> outcome reply_content :=
  fun _ _ => Return c.

End Fixture.

(** * Properties *)

Import Py Eff App Spec.

(** ** The trace monad *)

Section MonadFacts.
Context {A B : Type}.

Lemma bind_pure (a : A) (f : A -> M B) : ((([], Return a) : M A) ≫= f) = f a.
Proof. unfold mbind, M_bind. by destruct (f a). Qed.

Lemma bind_tell (ev : event) (f : unit -> M B) :
  (tell ev ≫= f) = (ev :: trace (f tt), result (f tt)).
Proof. unfold mbind, M_bind, tell, trace, result. by destruct (f tt). Qed.

Lemma bind_split (m : M A) (f : A -> M B) :
  (m ≫= f) =
  match result m with
  | Return a => (trace m ++ trace (f a), result (f a))
  | Raise e => (trace m, Raise e)
  end.
Proof.
  destruct m as [t [a|e]]; unfold mbind, M_bind, trace, result; simpl; [|done].
  by destruct (f a).
Qed.

Lemma try_except_split (m : M A) (h : exn -> M A) :
  try_except m h =
  match result m with
  | Return a => (trace m, Return a)
  | Raise e => (trace m ++ trace (h e), result (h e))
  end.
Proof.
  destruct m as [t [a|e]]; unfold try_except, trace, result; simpl; [done|].
  by destruct (h e).
Qed.

End MonadFacts.

Lemma calls_app (t1 t2 : list event) : calls (t1 ++ t2) = calls t1 ++ calls t2.
Proof. unfold calls. apply omap_app. Qed.

(** ** Dictionaries *)

Lemma dict_get_missing (o : list (string * json)) (k : string) :
  dict_has o k = false -> dict_get o k = JNull.
Proof.
  induction o as [|[k' v] o IH]; simpl; [done|].
  destruct (String.eqb k' k); simpl; [discriminate|exact IH].
Qed.

Lemma missing_falsy (o : list (string * json)) (k : string) :
  missing o k -> truthy (dict_get o k) = false.
Proof. intros H. by rewrite (dict_get_missing o k H). Qed.

Lemma truthy_string (s : string) : s <> "" -> truthy (JString s) = true.
Proof. intros H. simpl. by destruct s. Qed.

(** ** Reading the reply *)

Lemma block_text_pure (b : block) : trace (block_text b) = [].
Proof. unfold block_text. by destruct (text b). Qed.

Lemma mapM_block_text_pure (l : list block) : trace (mapM block_text l) = [].
Proof.
  induction l as [|b l IH]; [done|].
  cbn [mapM]. rewrite bind_split, block_text_pure.
  destruct (result (block_text b)); [|done].
  rewrite bind_split, IH. by destruct (result (mapM block_text l)).
Qed.

Lemma mapM_text_blocks (segs : list string) :
  mapM block_text (map TextBlock segs) = ([], Return segs).
Proof.
  induction segs as [|s segs IH]; [done|].
  cbn [map mapM]. rewrite IH. reflexivity.
Qed.

Lemma get_completion_pure (c : reply_content) : trace (get_completion c) = [].
Proof.
  destruct c as [blocks|[|a s]]; [|done..].
  unfold get_completion. rewrite bind_split, mapM_block_text_pure.
  by destruct (result (mapM block_text blocks)).
Qed.

Lemma get_completion_text_blocks (segs : list string) :
  get_completion (ContentList (map TextBlock segs)) = ([], Return (String.concat "" segs)).
Proof. unfold get_completion. by rewrite mapM_text_blocks. Qed.

(** ** Formatting the steps *)

(** Every template of [STEPS] is a well-formed format string: formatting the
    six of them raises nothing, whatever the text put in. *)
Lemma format_steps (v : string) :
  mapM (fun st : string * string =>
          let '(step, tag) := st in lift (str_format step v)) STEPS
  = ([], Return (map (fun st : string * string => substituted st.1 v) STEPS)).
Proof. vm_compute. reflexivity. Qed.

(** Only the first template has a placeholder. *)
Lemma substituted_steps (v : string) :
  map (fun st : string * string => substituted st.1 v) STEPS =
  ("Identify the ethical problem or dilemma in the following situation: " +:+ v +:+ ".")
    :: map fst (tail STEPS).
Proof. vm_compute. reflexivity. Qed.

Section Calls.

Variable float_repr : spec_float -> string.
Variable messages_create : Anthropic -> create_args -> outcome reply_content.
Variable CLIENT : Anthropic.

Lemma create_eq (c : Anthropic) (args : create_args) :
  create messages_create c args = ([MessagesCreate c args], messages_create c args).
Proof. unfold create. by rewrite bind_tell. Qed.

(** [ethical_analysis] makes one call, with the composed prompt, and turns
    the reply or the exception into a dictionary. *)
Lemma ethical_analysis_unfold (prompt : json) (c : Anthropic) :
  ethical_analysis float_repr messages_create prompt c =
  let args := analysis_kwargs (combined_prompt (py_str float_repr prompt)) in
  match messages_create c args with
  | Return response =>
      match result (get_completion response) with
      | Return text => ([MessagesCreate c args],
                        Return (JObject [("analysis", JString text)]))
      | Raise e => analysis_failed c args e
      end
  | Raise e => analysis_failed c args e
  end.
Proof.
  unfold ethical_analysis. rewrite format_steps, bind_pure.
  change (String.concat LF _) with (combined_prompt (py_str float_repr prompt)).
  match goal with
  | |- context [create _ c ?a] =>
      change a with (analysis_kwargs (combined_prompt (py_str float_repr prompt)))
  end.
  cbv zeta. rewrite create_eq, bind_split. cbn [trace result fst snd].
  destruct (messages_create c _) as [response|e]; [|reflexivity].
  rewrite try_except_split, bind_split, get_completion_pure.
  cbn [trace result fst snd].
  destruct (result (get_completion response)); reflexivity.
Qed.

(** [ethical_analysis] always returns a dictionary. *)
Lemma ethical_analysis_returns (prompt : json) (c : Anthropic) :
  exists j, result (ethical_analysis float_repr messages_create prompt c) = Return j.
Proof.
  rewrite ethical_analysis_unfold. cbv zeta.
  destruct (messages_create c _) as [response|e]; [|by eexists].
  destruct (result (get_completion response)); by eexists.
Qed.

Lemma ethical_analysis_calls (prompt : json) (c : Anthropic) :
  calls (trace (ethical_analysis float_repr messages_create prompt c)) =
  [analysis_kwargs (combined_prompt (py_str float_repr prompt))].
Proof.
  rewrite ethical_analysis_unfold. cbv zeta.
  destruct (messages_create c _) as [response|e]; [|reflexivity].
  destruct (result (get_completion response)); reflexivity.
Qed.

End Calls.

Section Handlers.

Variable float_repr : spec_float -> string.
Variable messages_create : Anthropic -> create_args -> outcome reply_content.
Variable CLIENT : Anthropic.

Local Abbreviation create_eq := (create_eq messages_create).
Local Abbreviation ethical_analysis := (ethical_analysis float_repr messages_create).
Local Abbreviation grade_completion := (grade_completion float_repr messages_create CLIENT).
Local Abbreviation analyze_ethics := (analyze_ethics float_repr messages_create CLIENT).
Local Abbreviation evaluate_completion :=
  (evaluate_completion float_repr messages_create CLIENT).

(** [grade_completion] makes one call with the grader prompt; it returns
    the joined text of the reply, or raises a [RuntimeError] that carries
    the message of what went wrong. *)
Lemma grade_completion_unfold (output rubric : json) :
  grade_completion output rubric =
  let args := grading_kwargs (build_grader_prompt float_repr output rubric) in
  match messages_create CLIENT args with
  | Return (ContentList blocks) =>
      match result (mapM block_text blocks) with
      | Return texts =>
          ([MessagesCreate CLIENT args],
           Return (JObject [("response", JString (String.concat "" texts))]))
      | Raise e => grading_failed CLIENT args e
      end
  | Return (ContentStr s) =>
      ([MessagesCreate CLIENT args], Return (JObject [("response", JString s)]))
  | Raise e => grading_failed CLIENT args e
  end.
Proof.
  unfold App.grade_completion. cbv zeta.
  match goal with
  | |- context [create _ CLIENT ?a] =>
      change a with (grading_kwargs (build_grader_prompt float_repr output rubric))
  end.
  rewrite create_eq, bind_split. cbn [trace result fst snd].
  destruct (messages_create CLIENT _) as [[blocks|s]|e]; [| reflexivity..].
  rewrite try_except_split.
  rewrite !bind_split, mapM_block_text_pure. cbn [trace result fst snd].
  destruct (result (mapM block_text blocks)); reflexivity.
Qed.

Lemma grade_completion_calls (output rubric : json) :
  calls (trace (grade_completion output rubric)) =
  [grading_kwargs (build_grader_prompt float_repr output rubric)].
Proof.
  rewrite grade_completion_unfold. cbv zeta.
  destruct (messages_create CLIENT _) as [[blocks|s]|e]; [| reflexivity..].
  destruct (result (mapM block_text blocks)); reflexivity.
Qed.

(** [POST /analysis], path by path. *)
Lemma analyze_ethics_unfold (request_json : outcome json) :
  analyze_ethics request_json =
  match request_json with
  | Raise e => (logged_exception e, Return (analysis_server_error e))
  | Return data =>
      match py_get data "situation" with
      | Raise e => (logged_exception e, Return (analysis_server_error e))
      | Return situation =>
          if truthy situation then
            let r := ethical_analysis situation CLIENT in
            match result r with
            | Return analysis_results =>
                (logged INFO "Performing ethical analysis" ++ trace r
                   ++ logged INFO "Ethical analysis completed",
                 Return (jsonify analysis_results))
            | Raise e =>
                (logged INFO "Performing ethical analysis" ++ trace r
                   ++ logged_exception e,
                 Return (analysis_server_error e))
            end
          else (logged ERROR "Situation not provided", Return analysis_bad_request)
      end
  end.
Proof.
  unfold App.analyze_ethics.
  destruct request_json as [data|e]; [|reflexivity].
  unfold lift. rewrite bind_pure.
  destruct (py_get data "situation") as [situation|e]; [|reflexivity].
  rewrite bind_pure.
  destruct (truthy situation); [|reflexivity].
  cbn [negb]. unfold logging, logger.
  rewrite try_except_split, !bind_tell, bind_split.
  destruct (result (ethical_analysis situation CLIENT)) as [j|e] eqn:E;
    cbv zeta; rewrite ?E; cbn [trace result fst snd]; rewrite ?E.
  - rewrite !bind_tell. cbn [trace result fst snd mret M_ret]. reflexivity.
  - cbn [trace result fst snd]. rewrite !bind_tell. reflexivity.
Qed.

(** [POST /eval], path by path. *)
Lemma evaluate_completion_unfold (request_json : outcome json) :
  evaluate_completion request_json =
  match request_json with
  | Raise e => (logged_exception e, Return (eval_server_error e))
  | Return data =>
      match py_get data "prompt" with
      | Raise e => (logged_exception e, Return (eval_server_error e))
      | Return _ =>
          let prompt := dict_get_of data "prompt" in
          let completion := dict_get_of data "completion" in
          let rubric := dict_get_of data "rubric" in
          if eval_rejects prompt completion rubric then
            (logged ERROR "Prompt, completion, or rubric not provided",
             Return eval_bad_request)
          else
            let r := grade_completion completion rubric in
            match result r with
            | Return graded =>
                (logged INFO "Evaluating completion" ++ trace r
                   ++ logged INFO "Completion evaluation completed",
                 Return (jsonify graded))
            | Raise e =>
                (logged INFO "Evaluating completion" ++ trace r
                   ++ logged_exception e,
                 Return (eval_server_error e))
            end
      end
  end.
Proof.
  unfold App.evaluate_completion.
  destruct request_json as [data|e]; [|reflexivity].
  unfold lift. rewrite bind_pure.
  destruct data; try reflexivity.
  cbn [py_get dict_get_of]. rewrite !bind_pure.
  fold (eval_rejects (dict_get o "prompt") (dict_get o "completion")
          (dict_get o "rubric")).
  cbv zeta.
  destruct (eval_rejects _ _ _); [reflexivity|].
  unfold logging, logger.
  rewrite try_except_split, !bind_tell, bind_split.
  destruct (result (grade_completion _ _)) as [j|e] eqn:E;
    rewrite ?E; cbn [trace result fst snd]; rewrite ?E.
  - rewrite !bind_tell. cbn [trace result fst snd mret M_ret]. reflexivity.
  - cbn [trace result fst snd]. rewrite !bind_tell. reflexivity.
Qed.

(** Neither handler lets an exception out: each request gets a response. *)
Lemma analyze_ethics_responds (request_json : outcome json) :
  exists r, result (analyze_ethics request_json) = Return r.
Proof.
  rewrite analyze_ethics_unfold.
  destruct request_json as [data|e]; [|by eexists].
  destruct (py_get data "situation") as [situation|e]; [|by eexists].
  destruct (truthy situation); [|by eexists].
  cbv zeta. destruct (result (ethical_analysis situation CLIENT)); by eexists.
Qed.

Lemma evaluate_completion_responds (request_json : outcome json) :
  exists r, result (evaluate_completion request_json) = Return r.
Proof.
  rewrite evaluate_completion_unfold.
  destruct request_json as [data|e]; [|by eexists].
  destruct (py_get data "prompt"); [|by eexists].
  cbv zeta. destruct (eval_rejects _ _ _); [by eexists|].
  destruct (result (grade_completion _ _)); by eexists.
Qed.

(** The guard of [POST /eval] fires as soon as one field is false. *)
Lemma eval_rejects_falsy (o : list (string * json)) :
  truthy (dict_get o "prompt") = false \/
  truthy (dict_get o "completion") = false \/
  truthy (dict_get o "rubric") = false ->
  eval_rejects (dict_get o "prompt") (dict_get o "completion") (dict_get o "rubric")
  = true.
Proof.
  unfold eval_rejects. intros [H|[H|H]]; rewrite H; cbn [negb orb];
    rewrite ?orb_true_r; reflexivity.
Qed.

Lemma evaluate_completion_rejected (o : list (string * json)) :
  eval_rejects (dict_get o "prompt") (dict_get o "completion") (dict_get o "rubric")
  = true ->
  evaluate_completion (Return (JObject o)) =
  (logged ERROR "Prompt, completion, or rubric not provided", Return eval_bad_request).
Proof.
  intros H. rewrite evaluate_completion_unfold. cbn [py_get dict_get_of].
  cbv zeta. by rewrite H.
Qed.

Lemma evaluate_completion_accepted (o : list (string * json)) :
  truthy (dict_get o "prompt") = true ->
  truthy (dict_get o "completion") = true ->
  truthy (dict_get o "rubric") = true ->
  evaluate_completion (Return (JObject o)) =
  let r := grade_completion (dict_get o "completion") (dict_get o "rubric") in
  match result r with
  | Return graded =>
      (logged INFO "Evaluating completion" ++ trace r
         ++ logged INFO "Completion evaluation completed",
       Return (jsonify graded))
  | Raise e =>
      (logged INFO "Evaluating completion" ++ trace r ++ logged_exception e,
       Return (eval_server_error e))
  end.
Proof.
  intros Hp Hc Hr. rewrite evaluate_completion_unfold. cbn [py_get dict_get_of].
  cbv zeta. unfold eval_rejects. by rewrite Hp, Hc, Hr.
Qed.

End Handlers.

(** ** Text inside text *)

Lemma is_prefix_refl (s t : string) : is_prefix s (s +:+ t) = true.
Proof.
  induction s as [|c s IH]; [done|].
  change (String c s +:+ t) with (String c (s +:+ t)).
  simpl. by rewrite Ascii.eqb_refl, IH.
Qed.

Lemma is_prefix_self (s : string) : is_prefix s s = true.
Proof.
  induction s as [|c s IH]; [done|].
  simpl. by rewrite Ascii.eqb_refl, IH.
Qed.

Lemma is_substring_suffix (p s : string) : is_substring s (p +:+ s) = true.
Proof.
  induction p as [|c p IH].
  - change ("" +:+ s) with s. destruct s as [|a s]; [done|].
    cbn [is_substring]. by rewrite is_prefix_self.
  - change (String c p +:+ s) with (String c (p +:+ s)).
    cbn [is_substring]. rewrite IH. apply orb_true_r.
Qed.

(** * The claims *)

(** C4: [GET /api/steps] returns exactly six [instruction, tag] pairs, each
    instruction a template of [STEPS] wrapped in the prompt tag, the tags in
    the order [<problem>], [<principles>], [<dimensions>], [<actions>],
    [<consequences>], [<answer>]; it makes no call to the hosted model. *)
Theorem C4_get_steps_six_pairs :
  exists pairs : list (string * string),
    result get_steps =
      Return {| body := PJson (JList (map (fun p : string * string =>
                                             JList [JString p.1; JString p.2]) pairs));
                status := 200 |}
    /\ List.length pairs = 6%nat
    /\ map fst pairs =
       map (fun st : string * string => "<prompt>" +:+ st.1 +:+ "</prompt>") STEPS
    /\ map snd pairs = claimed_tags
    /\ calls (trace get_steps) = [].
Proof.
  exists (map (fun st : string * string => ("<prompt>" +:+ st.1 +:+ "</prompt>", st.2))
              STEPS).
  repeat split; reflexivity.
Qed.

(** C5: a [POST /analysis] whose body is an object without a [situation]
    field, or with the empty string as [situation], is answered with status
    400, an error of type [invalid_request_error] and the fixed message, and
    no call to the hosted model is made. *)
Theorem C5_analysis_missing_situation
    (float_repr : spec_float -> string)
    (messages_create : Anthropic -> create_args -> outcome reply_content)
    (CLIENT : Anthropic) (o : list (string * json)) :
  missing o "situation" \/ dict_get o "situation" = JString "" ->
  let run := analyze_ethics float_repr messages_create CLIENT (Return (JObject o)) in
  result run =
    Return {| body := PJson (JObject
                [("type", JString "error");
                 ("error", JObject [("type", JString "invalid_request_error");
                                    ("message", JString "Situation not provided.")])]);
              status := 400 |}
  /\ calls (trace run) = [].
Proof.
  intros H run. subst run. rewrite analyze_ethics_unfold. cbn [py_get].
  assert (truthy (dict_get o "situation") = false) as ->.
  { destruct H as [H|H]; [by apply missing_falsy | by rewrite H]. }
  split; reflexivity.
Qed.

Lemma C5_analysis_missing_situation_witness :
  (missing [("note", JString "hello")] "situation" \/
   dict_get [("note", JString "hello")] "situation" = JString "") /\
  let run := analyze_ethics Fixture.float_repr (Fixture.answering ["ok"])
               Fixture.CLIENT (Return (JObject [("note", JString "hello")])) in
  result run =
    Return {| body := PJson (JObject
                [("type", JString "error");
                 ("error", JObject [("type", JString "invalid_request_error");
                                    ("message", JString "Situation not provided.")])]);
              status := 400 |}
  /\ calls (trace run) = [].
Proof.
  split; [left; reflexivity|].
  apply (C5_analysis_missing_situation Fixture.float_repr (Fixture.answering ["ok"])
           Fixture.CLIENT [("note", JString "hello")]).
  left; reflexivity.
Defined.

(** C6: a [POST /eval] whose body is an object that lacks [prompt],
    [completion] or [rubric] is answered with status 400 and the fixed
    message, and no call to the hosted model is made. *)
Theorem C6_eval_missing_field
    (float_repr : spec_float -> string)
    (messages_create : Anthropic -> create_args -> outcome reply_content)
    (CLIENT : Anthropic) (o : list (string * json)) :
  missing o "prompt" \/ missing o "completion" \/ missing o "rubric" ->
  let run := evaluate_completion float_repr messages_create CLIENT (Return (JObject o)) in
  result run =
    Return {| body := PJson (JObject
                [("error", JString "Prompt, completion, or rubric not provided")]);
              status := 400 |}
  /\ calls (trace run) = [].
Proof.
  intros H run. subst run. rewrite evaluate_completion_rejected.
  - split; reflexivity.
  - apply eval_rejects_falsy.
    destruct H as [H|[H|H]]; apply missing_falsy in H; auto.
Qed.

Lemma C6_eval_missing_field_witness :
  let o := [("prompt", JString "p"); ("completion", JString "c")] in
  (missing o "prompt" \/ missing o "completion" \/ missing o "rubric") /\
  let run := evaluate_completion Fixture.float_repr (Fixture.answering ["X"])
               Fixture.CLIENT (Return (JObject o)) in
  result run =
    Return {| body := PJson (JObject
                [("error", JString "Prompt, completion, or rubric not provided")]);
              status := 400 |}
  /\ calls (trace run) = [].
Proof.
  split; [right; right; reflexivity|].
  apply (C6_eval_missing_field Fixture.float_repr (Fixture.answering ["X"])
           Fixture.CLIENT [("prompt", JString "p"); ("completion", JString "c")]).
  right; right; reflexivity.
Defined.

(** C10: a [POST /eval] in which [prompt], [completion] or [rubric] is there
    with a value Python takes as false (the empty string, [0], [false],
    [null], an empty list or object) gets the very response, trace
    included, of a request in which a field is missing: status 400 with the
    fixed message, and no call to the hosted model. *)
Theorem C10_eval_falsy_field
    (float_repr : spec_float -> string)
    (messages_create : Anthropic -> create_args -> outcome reply_content)
    (CLIENT : Anthropic) (o : list (string * json)) :
  present_falsy o "prompt" \/ present_falsy o "completion" \/ present_falsy o "rubric" ->
  let run := evaluate_completion float_repr messages_create CLIENT (Return (JObject o)) in
  (forall o' : list (string * json),
      missing o' "prompt" \/ missing o' "completion" \/ missing o' "rubric" ->
      run = evaluate_completion float_repr messages_create CLIENT (Return (JObject o')))
  /\ result run =
       Return {| body := PJson (JObject
                   [("error", JString "Prompt, completion, or rubric not provided")]);
                 status := 400 |}
  /\ calls (trace run) = [].
Proof.
  intros H run. subst run.
  rewrite evaluate_completion_rejected.
  - split; [|split; reflexivity].
    intros o' H'. rewrite evaluate_completion_rejected; [reflexivity|].
    apply eval_rejects_falsy.
    destruct H' as [H'|[H'|H']]; apply missing_falsy in H'; auto.
  - apply eval_rejects_falsy.
    destruct H as [[_ H]|[[_ H]|[_ H]]]; auto.
Qed.

Lemma C10_eval_falsy_field_witness :
  let o := [("prompt", JString "p"); ("completion", JString ""); ("rubric", JString "r")] in
  (present_falsy o "prompt" \/ present_falsy o "completion" \/ present_falsy o "rubric") /\
  let run := evaluate_completion Fixture.float_repr (Fixture.answering ["X"])
               Fixture.CLIENT (Return (JObject o)) in
  (forall o' : list (string * json),
      missing o' "prompt" \/ missing o' "completion" \/ missing o' "rubric" ->
      run = evaluate_completion Fixture.float_repr (Fixture.answering ["X"])
              Fixture.CLIENT (Return (JObject o')))
  /\ result run =
       Return {| body := PJson (JObject
                   [("error", JString "Prompt, completion, or rubric not provided")]);
                 status := 400 |}
  /\ calls (trace run) = [].
Proof.
  split; [right; left; split; reflexivity|].
  apply (C10_eval_falsy_field Fixture.float_repr (Fixture.answering ["X"]) Fixture.CLIENT
           [("prompt", JString "p"); ("completion", JString ""); ("rubric", JString "r")]).
  right; left; split; reflexivity.
Defined.

(** C9: at module start, if [ANTHROPIC_API_KEY] is not in the environment
    (after [load_dotenv()]), the module raises a [ValueError] and the import
    ends there; if it is there, start goes on and the client is built with
    that key. *)
Theorem C9_startup_needs_api_key
    (load_dotenv : gmap string string -> gmap string string)
    (os_environ : gmap string string) :
  (load_dotenv os_environ !! "ANTHROPIC_API_KEY" = None ->
   startup load_dotenv os_environ =
     Raise (Exception "ValueError"
              "Anthropic API key not found in environment variables."))
  /\ (forall key : string,
        load_dotenv os_environ !! "ANTHROPIC_API_KEY" = Some key ->
        exists client, startup load_dotenv os_environ = Return client
                       /\ api_key client = key).
Proof.
  unfold startup. split.
  - by intros ->.
  - intros key ->. by eexists.
Qed.

Lemma C9_startup_needs_api_key_witness :
  (Fixture.load_dotenv (∅ : gmap string string) !! "ANTHROPIC_API_KEY" = None /\
   startup Fixture.load_dotenv ∅ =
     Raise (Exception "ValueError"
              "Anthropic API key not found in environment variables."))
  /\ (Fixture.load_dotenv {[ "ANTHROPIC_API_KEY" := "sk-ant-test" ]}
        !! "ANTHROPIC_API_KEY" = Some "sk-ant-test" /\
      exists client,
        startup Fixture.load_dotenv {[ "ANTHROPIC_API_KEY" := "sk-ant-test" ]}
        = Return client /\ api_key client = "sk-ant-test").
Proof.
  split; split.
  - reflexivity.
  - apply (C9_startup_needs_api_key Fixture.load_dotenv ∅). reflexivity.
  - reflexivity.
  - apply (C9_startup_needs_api_key Fixture.load_dotenv
             {[ "ANTHROPIC_API_KEY" := "sk-ant-test" ]}).
    reflexivity.
Defined.

(** The two branches of [serve], whatever the file system and Flask do. *)
Lemma serve_branches
    (static_folder : string) (os_path_exists : string -> bool)
    (send_from_directory : string -> string -> response) (path : string) :
  (path = "" \/ os_path_exists (static_folder +:+ "/" +:+ path) = false ->
   result (serve static_folder os_path_exists send_from_directory path)
   = Return (send_from_directory static_folder "index.html"))
  /\ (path <> "" /\ os_path_exists (static_folder +:+ "/" +:+ path) = true ->
      result (serve static_folder os_path_exists send_from_directory path)
      = Return (send_from_directory static_folder path)).
Proof.
  unfold serve, logger, logging. rewrite !bind_tell. cbn [result snd].
  split.
  - intros [-> | H]; [reflexivity|].
    by rewrite H, andb_false_r.
  - intros [Hne H]. rewrite H.
    destruct (String.eqb_spec path ""); [done|reflexivity].
Qed.

(** ** Paths under an absolute folder *)

Lemma startswith_app (p a b : string) :
  Static.startswith p a = true -> Static.startswith p (a +:+ b) = true.
Proof.
  revert a. induction p as [|c p IH]; intros a; [done|].
  destruct a as [|d a]; [done|].
  change (String d a +:+ b) with (String d (a +:+ b)). simpl.
  intros [-> H]%andb_true_iff. by rewrite (IH a H).
Qed.

Lemma absolute_folder_inv (d : string) :
  Static.absolute_folder d = true ->
  Static.startswith "/" d = true /\ Static.endswith_slash d = false
  /\ String.eqb d "" = false.
Proof.
  unfold Static.absolute_folder. intros [H1 H2%negb_true_iff]%andb_true_iff.
  repeat split; [done|done|]. by destruct d.
Qed.

(** Joining under an absolute folder gives an absolute path, which the join
    with the application root leaves as it is. *)
Lemma posix_join_absolute (root d f : string) :
  Static.absolute_folder d = true ->
  Static.startswith "/" f = false ->
  Static.posix_join d f = d +:+ "/" +:+ f
  /\ Static.posix_join root (Static.posix_join d f) = Static.posix_join d f.
Proof.
  intros (Hs & He & Hn)%absolute_folder_inv Hf.
  assert (Static.posix_join d f = d +:+ "/" +:+ f) as ->.
  { unfold Static.posix_join. by rewrite Hf, Hn, He. }
  split; [reflexivity|].
  unfold Static.posix_join. by rewrite (startswith_app _ _ _ Hs).
Qed.

Lemma safe_join_inv (d path joined : string) :
  Static.safe_join d path = Some joined ->
  exists f, Static.startswith "/" f = false
            /\ joined = Static.posix_join (if String.eqb d "" then "." else d) f.
Proof.
  unfold Static.safe_join. cbv zeta.
  destruct (Static.startswith "/" _) eqn:Hf; [discriminate|].
  cbn [orb]. destruct (_ || _); [discriminate|].
  intros [= <-]. eauto.
Qed.

Lemma send_index (lookup_path : string -> option Static.node)
    (root_path not_found_page static_folder data : string) :
  Static.absolute_folder static_folder = true ->
  lookup_path (static_folder +:+ "/" +:+ "index.html") = Some (Static.File data) ->
  Static.send_from_directory lookup_path root_path not_found_page static_folder
    "index.html" = {| body := PFile data; status := 200 |}.
Proof.
  intros Habs Hindex.
  destruct (posix_join_absolute root_path static_folder "index.html" Habs eq_refl)
    as [Hjoin Hroot].
  destruct (absolute_folder_inv _ Habs) as (_ & _ & Hn).
  unfold Static.send_from_directory, Static.safe_join. rewrite Hn.
  change (Static.normpath "index.html") with ("index.html" : string).
  cbn [String.eqb Ascii.eqb Static.startswith orb andb Bool.eqb].
  by rewrite Hroot, Hjoin, Hindex.
Qed.




(** C7, as the specification has it, fails on a request whose three fields
    are all there but one of which is the empty string: the guard answers
    400 and the hosted model is not asked. *)
Lemma C7_counterexample :
  let o := [("prompt", JString ""); ("completion", JString "c"); ("rubric", JString "r")] in
  let run := evaluate_completion Fixture.float_repr (Fixture.answering ["X"])
               Fixture.CLIENT (Return (JObject o)) in
  (dict_has o "prompt" = true /\ dict_has o "completion" = true /\
   dict_has o "rubric" = true)
  /\ result run = Return eval_bad_request
  /\ result run <> Return (jsonify (JObject [("response", JString "X")])).
Proof. repeat split; discriminate. Qed.

(** C7 (amended): for a [POST /eval] whose three fields are all there with
    values Python takes as true, when the hosted model returns a list of text
    segments, the response is [{response: s}] with status 200, where [s] is
    the segments joined in the order they came; a single segment [X] gives
    [{response: X}]. *)
Theorem C7_eval_joins_segments
    (float_repr : spec_float -> string)
    (messages_create : Anthropic -> create_args -> outcome reply_content)
    (CLIENT : Anthropic) (o : list (string * json)) (segments : list string) :
  truthy (dict_get o "prompt") = true ->
  truthy (dict_get o "completion") = true ->
  truthy (dict_get o "rubric") = true ->
  messages_create CLIENT
    (grading_kwargs (build_grader_prompt float_repr (dict_get o "completion")
                       (dict_get o "rubric")))
  = Return (ContentList (map TextBlock segments)) ->
  let run := evaluate_completion float_repr messages_create CLIENT (Return (JObject o)) in
  result run =
    Return {| body := PJson (JObject [("response", JString (String.concat "" segments))]);
              status := 200 |}
  /\ (forall x : string, segments = [x] ->
      result run = Return {| body := PJson (JObject [("response", JString x)]);
                             status := 200 |}).
Proof.
  intros Hp Hc Hr Hreply run.
  assert (result run =
            Return {| body := PJson (JObject [("response",
                                               JString (String.concat "" segments))]);
                      status := 200 |}) as Hrun.
  { subst run. rewrite evaluate_completion_accepted by done. cbv zeta.
    rewrite grade_completion_unfold. cbv zeta.
    rewrite Hreply, mapM_text_blocks. reflexivity. }
  split; [exact Hrun|].
  intros x ->. exact Hrun.
Qed.

Lemma C7_eval_joins_segments_witness :
  let o := [("prompt", JString "p"); ("completion", JString "c"); ("rubric", JString "r")] in
  let run := evaluate_completion Fixture.float_repr (Fixture.answering ["X"; "Y"])
               Fixture.CLIENT (Return (JObject o)) in
  (truthy (dict_get o "prompt") = true /\ truthy (dict_get o "completion") = true /\
   truthy (dict_get o "rubric") = true)
  /\ result run =
       Return {| body := PJson (JObject [("response", JString "XY")]); status := 200 |}.
Proof.
  split; [repeat split|].
  refine (proj1 (C7_eval_joins_segments Fixture.float_repr
                   (Fixture.answering ["X"; "Y"]) Fixture.CLIENT
                   [("prompt", JString "p"); ("completion", JString "c");
                    ("rubric", JString "r")]
                   ["X"; "Y"] _ _ _ _)); reflexivity.
Defined.

(** X13: when the call of an accepted [POST /eval] raises, the response has
    status 500 and its [error] text is [Error during grading: ] followed by
    the message of the exception. *)
Lemma eval_failure_is_500
    (float_repr : spec_float -> string)
    (messages_create : Anthropic -> create_args -> outcome reply_content)
    (CLIENT : Anthropic) (o : list (string * json)) (e : exn) :
  truthy (dict_get o "prompt") = true ->
  truthy (dict_get o "completion") = true ->
  truthy (dict_get o "rubric") = true ->
  messages_create CLIENT
    (grading_kwargs (build_grader_prompt float_repr (dict_get o "completion")
                       (dict_get o "rubric")))
  = Raise e ->
  result (evaluate_completion float_repr messages_create CLIENT (Return (JObject o))) =
    Return {| body := PJson (JObject [("error",
                                       JString ("Error during grading: " +:+ str_exn e))]);
              status := 500 |}
  /\ is_substring (str_exn e) ("Error during grading: " +:+ str_exn e) = true.
Proof.
  intros Hp Hc Hr Hfail. split; [|apply is_substring_suffix].
  rewrite evaluate_completion_accepted by done. cbv zeta.
  rewrite grade_completion_unfold. cbv zeta. rewrite Hfail. reflexivity.
Qed.

(** C2, the half that fails: when the call of [POST /analysis] raises, the
    body carries the message under [error], but the status is the default
    200, for every request with a true [situation]. *)
Lemma analysis_failure_is_200
    (float_repr : spec_float -> string)
    (messages_create : Anthropic -> create_args -> outcome reply_content)
    (CLIENT : Anthropic) (o : list (string * json)) (e : exn) :
  truthy (dict_get o "situation") = true ->
  messages_create CLIENT
    (analysis_kwargs (combined_prompt (py_str float_repr (dict_get o "situation"))))
  = Raise e ->
  result (analyze_ethics float_repr messages_create CLIENT (Return (JObject o))) =
    Return {| body := PJson (JObject
                [("error", JObject [("message", JString (str_exn e));
                                    ("type", JString "internal_server_error")])]);
              status := 200 |}.
Proof.
  intros Hs Hfail. rewrite analyze_ethics_unfold. cbn [py_get]. rewrite Hs. cbv zeta.
  rewrite ethical_analysis_unfold. cbv zeta. rewrite Hfail. reflexivity.
Qed.

(** C2 at the failing input: [POST /analysis] with [{situation: x}] while the
    hosted model raises [Connection error.]; the handler answers, with the
    message in the body, and with status 200. *)
Theorem C2_analysis_failure_status :
  result (analyze_ethics Fixture.float_repr
            (Fixture.failing (Exception "APIConnectionError" "Connection error."))
            Fixture.CLIENT (Return (JObject [("situation", JString "x")]))) =
    Return {| body := PJson (JObject
                [("error", JObject [("message", JString "Connection error.");
                                    ("type", JString "internal_server_error")])]);
              status := 200 |}.
Proof. reflexivity. Qed.

(** C3, as the specification has it, fails on [POST /eval]: the 400 response
    to an empty object has no top-level [type], and its [error] is a text. *)
Lemma C3_counterexample :
  let run := evaluate_completion Fixture.float_repr (Fixture.answering ["X"])
               Fixture.CLIENT (Return (JObject [])) in
  exists r j, result run = Return r /\ status r = 400 /\ body r = PJson j
              /\ is_error_envelope j = false.
Proof. do 2 eexists. repeat split. Qed.

(** C3 (amended): the 400 and 500 responses of [POST /analysis] have the
    shape [{type, error: {type, message}}]; the 400 and 500 responses of
    [POST /eval] have the shape [{error: message}], the message a text. *)
Theorem C3_failure_shapes
    (float_repr : spec_float -> string)
    (messages_create : Anthropic -> create_args -> outcome reply_content)
    (CLIENT : Anthropic) (request_json : outcome json) :
  (forall r : response,
      result (analyze_ethics float_repr messages_create CLIENT request_json) = Return r ->
      status r = 400 \/ status r = 500 ->
      exists (error_type message : string) (j : json),
        j = JObject [("type", JString "error");
                     ("error", JObject [("type", JString error_type);
                                        ("message", JString message)])]
        /\ body r = PJson j /\ is_error_envelope j = true)
  /\ (forall r : response,
        result (evaluate_completion float_repr messages_create CLIENT request_json)
        = Return r ->
        status r = 400 \/ status r = 500 ->
        exists message : string, body r = PJson (JObject [("error", JString message)])).
Proof.
  split; intros r.
  - rewrite analyze_ethics_unfold.
    destruct request_json as [data|e].
    + destruct (py_get data "situation") as [situation|e].
      * destruct (truthy situation).
        -- cbv zeta.
           destruct (result (ethical_analysis float_repr messages_create situation CLIENT));
             intros [= <-] Hst.
           ++ by destruct Hst.
           ++ by do 3 eexists.
        -- intros [= <-] _. by do 3 eexists.
      * intros [= <-] _. by do 3 eexists.
    + intros [= <-] _. by do 3 eexists.
  - rewrite evaluate_completion_unfold.
    destruct request_json as [data|e].
    + destruct (py_get data "prompt").
      * cbv zeta. destruct (eval_rejects _ _ _).
        -- intros [= <-] _. by eexists.
        -- destruct (result (grade_completion float_repr messages_create CLIENT _ _));
             intros [= <-] Hst.
           ++ by destruct Hst.
           ++ by eexists.
      * intros [= <-] _. by eexists.
    + intros [= <-] _. by eexists.
Qed.

Lemma C3_failure_shapes_witness :
  let request := Return (JObject [("prompt", JString "p")]) in
  (result (analyze_ethics Fixture.float_repr (Fixture.answering ["X"]) Fixture.CLIENT
             request) = Return analysis_bad_request
   /\ (status analysis_bad_request = 400 \/ status analysis_bad_request = 500)
   /\ exists (error_type message : string) (j : json),
        j = JObject [("type", JString "error");
                     ("error", JObject [("type", JString error_type);
                                        ("message", JString message)])]
        /\ body analysis_bad_request = PJson j /\ is_error_envelope j = true)
  /\ (result (evaluate_completion Fixture.float_repr (Fixture.answering ["X"])
                Fixture.CLIENT request) = Return eval_bad_request
      /\ (status eval_bad_request = 400 \/ status eval_bad_request = 500)
      /\ exists message : string,
           body eval_bad_request = PJson (JObject [("error", JString message)])).
Proof.
  split; (split; [reflexivity | split; [left; reflexivity|]]).
  - apply (proj1 (C3_failure_shapes Fixture.float_repr (Fixture.answering ["X"])
                    Fixture.CLIENT (Return (JObject [("prompt", JString "p")])))
             analysis_bad_request); [reflexivity | left; reflexivity].
  - apply (proj2 (C3_failure_shapes Fixture.float_repr (Fixture.answering ["X"])
                    Fixture.CLIENT (Return (JObject [("prompt", JString "p")])))
             eval_bad_request); [reflexivity | left; reflexivity].
Defined.

(** C1, as the specification has it, fails on the situation [x]: the text
    handed to the hosted model is not the plain concatenation of template,
    newline and tag over the six steps. *)
Lemma C1_counterexample :
  let request := Return (JObject [("situation", JString "x")]) in
  let run := analyze_ethics Fixture.float_repr (Fixture.answering ["ok"])
               Fixture.CLIENT request in
  ("x" : string) <> ""
  /\ submitted_prompts (trace run) = [combined_prompt "x"]
  /\ submitted_prompts (trace run) <> [claimed_prompt "x"].
Proof.
  split; [discriminate|]. split; [reflexivity|].
  intros H. apply (f_equal (map String.length)) in H.
  vm_compute in H. discriminate H.
Qed.

(** What [POST /analysis] hands to the hosted model, exactly: one call, whose
    one user message is the six segments joined by newlines, the segment of
    a step being its formatted template, a newline, and Python's rendering
    of the whole [(template, tag)] entry of [STEPS]. *)
Lemma analyze_ethics_prompt
    (float_repr : spec_float -> string)
    (messages_create : Anthropic -> create_args -> outcome reply_content)
    (CLIENT : Anthropic) (o : list (string * json)) :
  truthy (dict_get o "situation") = true ->
  calls (trace (analyze_ethics float_repr messages_create CLIENT (Return (JObject o))))
  = [analysis_kwargs (combined_prompt (py_str float_repr (dict_get o "situation")))].
Proof.
  intros Hs. rewrite analyze_ethics_unfold. cbn [py_get]. rewrite Hs. cbv zeta.
  destruct (result (ethical_analysis _ _ _ _));
    cbn [trace fst]; rewrite !calls_app, ethical_analysis_calls; reflexivity.
Qed.

(** C1 (amended): for every non-empty situation text, [POST /analysis] hands
    the hosted model one prompt, made of six segments in the order of the
    steps and joined by single newlines; the segment of a step starts with
    its template, the situation in place of the placeholder, followed by a
    newline. *)
Theorem C1_prompt_segments
    (float_repr : spec_float -> string)
    (messages_create : Anthropic -> create_args -> outcome reply_content)
    (CLIENT : Anthropic) (o : list (string * json)) (situation : string) :
  dict_get o "situation" = JString situation ->
  situation <> "" ->
  exists rendered : list string,
    List.length rendered = 6%nat /\
    submitted_prompts
      (trace (analyze_ethics float_repr messages_create CLIENT (Return (JObject o))))
    = [String.concat LF
         (zip_with (fun (st : string * string) (r : string) =>
                      substituted st.1 situation +:+ LF +:+ r)
                   STEPS rendered)].
Proof.
  intros Hs Hne. exists (map repr_tuple2 STEPS). split; [reflexivity|].
  unfold submitted_prompts. rewrite analyze_ethics_prompt.
  - rewrite Hs. vm_compute. reflexivity.
  - rewrite Hs. by apply truthy_string.
Qed.

Lemma C1_prompt_segments_witness :
  let o := [("situation", JString "May I read my sister's diary?")] in
  (dict_get o "situation" = JString "May I read my sister's diary?"
   /\ ("May I read my sister's diary?" : string) <> "")
  /\ exists rendered : list string,
       List.length rendered = 6%nat /\
       submitted_prompts
         (trace (analyze_ethics Fixture.float_repr (Fixture.answering ["ok"])
                   Fixture.CLIENT (Return (JObject o))))
       = [String.concat LF
            (zip_with (fun (st : string * string) (r : string) =>
                         substituted st.1 "May I read my sister's diary?" +:+ LF +:+ r)
                      STEPS rendered)].
Proof.
  split; [split; [reflexivity|discriminate]|].
  apply (C1_prompt_segments Fixture.float_repr (Fixture.answering ["ok"]) Fixture.CLIENT
           [("situation", JString "May I read my sister's diary?")]
           "May I read my sister's diary?"); [reflexivity|discriminate].
Defined.

(** * Further properties of the handlers *)

(** ** More on text *)

Lemma append_nil_r (s : string) : s +:+ "" = s.
Proof.
  induction s as [|c s IH]; [done|].
  change (String c s +:+ "") with (String c (s +:+ "")). by rewrite IH.
Qed.

Lemma append_assoc (a b c : string) : (a +:+ b) +:+ c = a +:+ b +:+ c.
Proof.
  induction a as [|x a IH]; [done|].
  change (String x (a +:+ b) +:+ c = String x (a +:+ b +:+ c)).
  change (String x ((a +:+ b) +:+ c) = String x (a +:+ b +:+ c)). by rewrite IH.
Qed.

Lemma join_app (l1 l2 : list string) :
  String.concat "" (l1 ++ l2) = String.concat "" l1 +:+ String.concat "" l2.
Proof.
  assert (forall x l, String.concat "" (x :: l) = x +:+ String.concat "" l) as Hcons.
  { intros x [|y l]; [by rewrite append_nil_r | reflexivity]. }
  induction l1 as [|x l1 IH]; [done|].
  change ((x :: l1) ++ l2) with (x :: (l1 ++ l2)).
  by rewrite !Hcons, IH, append_assoc.
Qed.

Lemma is_prefix_app (t a b : string) :
  is_prefix t a = true -> is_prefix t (a +:+ b) = true.
Proof.
  revert a. induction t as [|c t IH]; intros a; [done|].
  destruct a as [|d a]; [done|].
  change (String d a +:+ b) with (String d (a +:+ b)). simpl.
  intros [-> H]%andb_true_iff. by rewrite (IH a H).
Qed.

Lemma is_prefix_app_same (a t s : string) :
  is_prefix (a +:+ t) (a +:+ s) = is_prefix t s.
Proof.
  induction a as [|c a IH]; [done|].
  change (is_prefix (String c (a +:+ t)) (String c (a +:+ s)) = is_prefix t s).
  simpl. by rewrite Ascii.eqb_refl, IH.
Qed.

Lemma is_substring_prefix (t s : string) :
  is_prefix t s = true -> is_substring t s = true.
Proof. intros H. destruct s; simpl; by rewrite H. Qed.

Lemma is_substring_refl (s : string) : is_substring s s = true.
Proof. apply is_substring_prefix, is_prefix_self. Qed.

Lemma is_substring_app_l (t a b : string) :
  is_substring t a = true -> is_substring t (a +:+ b) = true.
Proof.
  induction a as [|c a IH].
  - simpl. rewrite orb_false_r. intros H. change ("" +:+ b) with b.
    destruct t; [by destruct b|discriminate].
  - change (String c a +:+ b) with (String c (a +:+ b)).
    cbn [is_substring]. intros [H|H]%orb_true_iff.
    + change (String c (a +:+ b)) with (String c a +:+ b).
      by rewrite (is_prefix_app _ _ b H).
    + rewrite (IH H). apply orb_true_r.
Qed.

Lemma is_substring_app_r (t a b : string) :
  is_substring t b = true -> is_substring t (a +:+ b) = true.
Proof.
  intros H. induction a as [|c a IH]; [done|].
  change (String c a +:+ b) with (String c (a +:+ b)).
  cbn [is_substring]. rewrite IH. apply orb_true_r.
Qed.

(** A pattern [a +:+ v +:+ b] inside a chain of pieces appended to the right,
    where the chain has the three pieces in a row. *)
Ltac find_substring :=
  lazymatch goal with
  | |- is_substring _ (_ +:+ _) = true =>
      first
        [ solve [ apply is_substring_prefix; rewrite !is_prefix_app_same;
                  apply is_prefix_app; apply is_prefix_self ]
        | apply is_substring_app_r; find_substring ]
  end.

(** ** Reading the reply, continued *)

Lemma mapM_block_text_stops (before : list string) (b : block) (rest : list block) :
  text b = None ->
  mapM block_text (map TextBlock before ++ b :: rest) =
  ([], Raise (Exception "AttributeError"
                ("'" +:+ block_class b +:+ "' object has no attribute 'text'"))).
Proof.
  intros Hb. induction before as [|s before IH].
  - cbn [map app mapM]. unfold block_text. by rewrite Hb.
  - cbn [map app mapM]. by rewrite IH.
Qed.

Lemma block_text_result (b : block) :
  result (block_text b) =
  match text b with
  | Some s => Return s
  | None => Raise (Exception "AttributeError"
                     ("'" +:+ block_class b +:+ "' object has no attribute 'text'"))
  end.
Proof. unfold block_text. by destruct (text b). Qed.

Lemma mapM_block_text_result (blocks : list block) :
  (exists texts, result (mapM block_text blocks) = Return texts)
  <-> forallb has_text blocks = true.
Proof.
  induction blocks as [|b blocks IH]; [by split; [|eexists]|].
  cbn [mapM forallb]. rewrite bind_split, andb_true_iff, <- IH.
  rewrite block_text_result. unfold has_text. destruct (text b).
  - rewrite bind_split. destruct (result (mapM block_text blocks)) as [ts|e].
    + split; [by eauto|]. intros _. by eexists.
    + split; [by intros [? [=]] | by intros [_ [? [=]]]].
  - split; [by intros [? [=]] | by intros [[=] _]].
Qed.

(** ** Extras *)

(** X1: [POST /analysis] with a situation Python takes as true, when the
    hosted model answers the composed request with a list of text segments,
    is answered with status 200 and [{analysis: s}], [s] the segments joined
    in order; the request leaves the start and end records on both loggers
    around its one call. *)
Theorem analysis_success
    (float_repr : spec_float -> string)
    (messages_create : Anthropic -> create_args -> outcome reply_content)
    (CLIENT : Anthropic) (o : list (string * json)) (segments : list string) :
  truthy (dict_get o "situation") = true ->
  messages_create CLIENT
    (analysis_kwargs (combined_prompt (py_str float_repr (dict_get o "situation"))))
  = Return (ContentList (map TextBlock segments)) ->
  let run := analyze_ethics float_repr messages_create CLIENT (Return (JObject o)) in
  result run =
    Return {| body := PJson (JObject [("analysis", JString (String.concat "" segments))]);
              status := 200 |}
  /\ trace run =
       [Log "root" INFO "Performing ethical analysis";
        Log "gunicorn.error" INFO "Performing ethical analysis";
        MessagesCreate CLIENT
          (analysis_kwargs (combined_prompt (py_str float_repr (dict_get o "situation"))));
        Log "root" INFO "Ethical analysis completed";
        Log "gunicorn.error" INFO "Ethical analysis completed"].
Proof.
  intros Hs Hreply run. subst run.
  rewrite analyze_ethics_unfold. cbn [py_get]. rewrite Hs. cbv zeta.
  rewrite ethical_analysis_unfold. cbv zeta.
  rewrite Hreply, get_completion_text_blocks. split; reflexivity.
Qed.

Lemma analysis_success_witness :
  let o := [("situation", JString "May I keep a found wallet?")] in
  let run := analyze_ethics Fixture.float_repr (Fixture.answering ["<problem>"; "..."])
               Fixture.CLIENT (Return (JObject o)) in
  truthy (dict_get o "situation") = true
  /\ result run =
       Return {| body := PJson (JObject [("analysis", JString "<problem>...")]);
                 status := 200 |}.
Proof.
  split; [reflexivity|].
  refine (proj1 (analysis_success Fixture.float_repr
                   (Fixture.answering ["<problem>"; "..."]) Fixture.CLIENT
                   [("situation", JString "May I keep a found wallet?")]
                   ["<problem>"; "..."] _ _)); reflexivity.
Defined.

(** X2: [get_completion] reads the blocks in order and stops at the first
    one without a [text] attribute: it raises the [AttributeError] that names
    the class of that block, whatever text came before and whatever follows. *)
Theorem get_completion_stops_at_textless_block
    (before : list string) (b : block) (rest : list block) :
  text b = None ->
  get_completion (ContentList (map TextBlock before ++ b :: rest)) =
  ([], Raise (Exception "AttributeError"
                ("'" +:+ block_class b +:+ "' object has no attribute 'text'"))).
Proof.
  intros Hb. unfold get_completion. by rewrite (mapM_block_text_stops _ _ _ Hb).
Qed.

Lemma get_completion_stops_at_textless_block_witness :
  let b := {| block_class := "ToolUseBlock"; text := None |} in
  text b = None
  /\ get_completion (ContentList (map TextBlock ["a"; "b"] ++ b :: [TextBlock "c"])) =
     ([], Raise (Exception "AttributeError"
                   "'ToolUseBlock' object has no attribute 'text'")).
Proof.
  split; [reflexivity|].
  apply (get_completion_stops_at_textless_block ["a"; "b"]
           {| block_class := "ToolUseBlock"; text := None |} [TextBlock "c"]).
  reflexivity.
Defined.

(** X3: [get_completion] joins with the empty separator: the text of a reply
    made of two runs of text segments is the text of the first run followed
    by the text of the second, and a reply without segments reads as the
    empty text. *)
Theorem get_completion_app (segments1 segments2 : list string) :
  get_completion (ContentList (map TextBlock (segments1 ++ segments2))) =
    ([], Return (String.concat "" segments1 +:+ String.concat "" segments2))
  /\ get_completion (ContentList []) = ([], Return "").
Proof.
  split; [|reflexivity].
  by rewrite get_completion_text_blocks, join_app.
Qed.

(** X4: a request whose JSON body is not an object (a list, a text, a number,
    a boolean, [null]) has no [get]: both [POST /analysis] and [POST /eval]
    answer 500 with the message of the [AttributeError], each in its own
    error shape, and neither calls the hosted model. *)
Theorem non_object_body_is_500
    (float_repr : spec_float -> string)
    (messages_create : Anthropic -> create_args -> outcome reply_content)
    (CLIENT : Anthropic) (data : json) :
  (forall o, data <> JObject o) ->
  let message := "'" +:+ type_name data +:+ "' object has no attribute 'get'" in
  let run_analysis := analyze_ethics float_repr messages_create CLIENT (Return data) in
  let run_eval := evaluate_completion float_repr messages_create CLIENT (Return data) in
  (result run_analysis =
     Return {| body := PJson (JObject
                 [("type", JString "error");
                  ("error", JObject [("type", JString "internal_server_error");
                                     ("message", JString message)])]);
               status := 500 |}
   /\ calls (trace run_analysis) = [])
  /\ (result run_eval =
        Return {| body := PJson (JObject [("error", JString message)]); status := 500 |}
      /\ calls (trace run_eval) = []).
Proof.
  intros Hdata message run_analysis run_eval.
  subst message run_analysis run_eval.
  rewrite analyze_ethics_unfold, evaluate_completion_unfold.
  destruct data; try (by repeat split).
  by destruct (Hdata o).
Qed.

Lemma non_object_body_is_500_witness :
  let data := JList [JString "situation"] in
  (forall o, data <> JObject o)
  /\ result (analyze_ethics Fixture.float_repr (Fixture.answering ["ok"]) Fixture.CLIENT
               (Return data)) =
     Return {| body := PJson (JObject
                 [("type", JString "error");
                  ("error", JObject [("type", JString "internal_server_error");
                                     ("message",
                                      JString "'list' object has no attribute 'get'")])]);
               status := 500 |}.
Proof.
  split; [discriminate|].
  refine (proj1 (proj1 (non_object_body_is_500 Fixture.float_repr
                          (Fixture.answering ["ok"]) Fixture.CLIENT
                          (JList [JString "situation"]) _))).
  discriminate.
Defined.

(** X5: when [request.json] itself raises (no JSON in the request), both
    handlers catch the exception: they log it on both loggers, answer 500
    with its message, and do not call the hosted model. *)
Theorem unreadable_body_is_500
    (float_repr : spec_float -> string)
    (messages_create : Anthropic -> create_args -> outcome reply_content)
    (CLIENT : Anthropic) (e : exn) :
  analyze_ethics float_repr messages_create CLIENT (Raise e) =
    ([Log "root" EXCEPTION ("An unexpected error occurred: " +:+ str_exn e);
      Log "gunicorn.error" EXCEPTION ("An unexpected error occurred: " +:+ str_exn e)],
     Return {| body := PJson (JObject
                 [("type", JString "error");
                  ("error", JObject [("type", JString "internal_server_error");
                                     ("message", JString (str_exn e))])]);
               status := 500 |})
  /\ evaluate_completion float_repr messages_create CLIENT (Raise e) =
       ([Log "root" EXCEPTION ("An unexpected error occurred: " +:+ str_exn e);
         Log "gunicorn.error" EXCEPTION ("An unexpected error occurred: " +:+ str_exn e)],
        Return {| body := PJson (JObject [("error", JString (str_exn e))]);
                  status := 500 |}).
Proof. by rewrite analyze_ethics_unfold, evaluate_completion_unfold. Qed.

(** X6: for a JSON object body, [POST /analysis] answers 400 when the
    situation is false for Python and 200 otherwise, whatever the hosted
    model does: [ethical_analysis] turns every failure of its own into a
    dictionary, so the 500 branch of the handler is not reached from an
    object body. *)
Theorem analysis_status_of_object_body
    (float_repr : spec_float -> string)
    (messages_create : Anthropic -> create_args -> outcome reply_content)
    (CLIENT : Anthropic) (o : list (string * json)) :
  exists r : response,
    result (analyze_ethics float_repr messages_create CLIENT (Return (JObject o)))
    = Return r
    /\ status r = if truthy (dict_get o "situation") then 200 else 400.
Proof.
  rewrite analyze_ethics_unfold. cbn [py_get].
  destruct (truthy (dict_get o "situation")); [|by eexists].
  cbv zeta.
  destruct (ethical_analysis_returns float_repr messages_create
              (dict_get o "situation") CLIENT) as [j ->].
  by eexists.
Qed.

(** X7: for a JSON object body, the status of [POST /eval] is 400 when one
    of the three fields is false for Python; otherwise it is 500 when the
    call raises or the reply has a block without text, and 200 when the
    reply is a plain text or a list of blocks that all have text. *)
Theorem eval_status_of_object_body
    (float_repr : spec_float -> string)
    (messages_create : Anthropic -> create_args -> outcome reply_content)
    (CLIENT : Anthropic) (o : list (string * json)) :
  exists r : response,
    result (evaluate_completion float_repr messages_create CLIENT (Return (JObject o)))
    = Return r
    /\ status r =
       if eval_rejects (dict_get o "prompt") (dict_get o "completion")
            (dict_get o "rubric")
       then 400
       else match messages_create CLIENT
                    (grading_kwargs
                       (build_grader_prompt float_repr (dict_get o "completion")
                          (dict_get o "rubric"))) with
            | Raise _ => 500
            | Return (ContentStr _) => 200
            | Return (ContentList blocks) => if forallb has_text blocks then 200 else 500
            end.
Proof.
  rewrite evaluate_completion_unfold. cbn [py_get dict_get_of]. cbv zeta.
  destruct (eval_rejects _ _ _); [by eexists|].
  rewrite grade_completion_unfold. cbv zeta.
  destruct (messages_create CLIENT _) as [[blocks|s]|e]; [|by eexists..].
  pose proof (mapM_block_text_result blocks) as Hall.
  destruct (result (mapM block_text blocks)) as [texts|e].
  - rewrite (proj1 Hall) by eauto. by eexists.
  - destruct (forallb has_text blocks); [|by eexists].
    destruct (proj2 Hall eq_refl) as [? [=]].
Qed.

(** X8: no request makes a handler call the hosted model more than once, and
    serving the front end never calls it. *)
Theorem at_most_one_call
    (float_repr : spec_float -> string)
    (messages_create : Anthropic -> create_args -> outcome reply_content)
    (CLIENT : Anthropic) (request_json : outcome json)
    (static_folder : string) (os_path_exists : string -> bool)
    (send_from_directory : string -> string -> response) (path : string) :
  (List.length (calls (trace (analyze_ethics float_repr messages_create CLIENT
                                request_json))) <= 1)%nat
  /\ (List.length (calls (trace (evaluate_completion float_repr messages_create CLIENT
                                   request_json))) <= 1)%nat
  /\ calls (trace (serve static_folder os_path_exists send_from_directory path)) = [].
Proof.
  split; [|split].
  - rewrite analyze_ethics_unfold.
    destruct request_json as [data|e]; [|cbn; lia].
    destruct (py_get data "situation") as [situation|e]; [|cbn; lia].
    destruct (truthy situation); [|cbn; lia].
    cbv zeta. destruct (result (ethical_analysis _ _ _ _));
      cbn [trace fst]; rewrite !calls_app, ethical_analysis_calls; cbn; lia.
  - rewrite evaluate_completion_unfold.
    destruct request_json as [data|e]; [|cbn; lia].
    destruct (py_get data "prompt"); [|cbn; lia].
    cbv zeta. destruct (eval_rejects _ _ _); [cbn; lia|].
    destruct (result (grade_completion _ _ _ _ _));
      cbn [trace fst]; rewrite !calls_app, grade_completion_calls; cbn; lia.
  - unfold serve, logger, logging. rewrite !bind_tell.
    by destruct (negb (String.eqb path "") && _).
Qed.

(** X9: the [prompt] field of [POST /eval] is only tested, never used: two
    object bodies whose [prompt] is true for Python and which have the same
    [completion] and the same [rubric] get the same run, call and response
    alike. *)
Theorem eval_ignores_prompt
    (float_repr : spec_float -> string)
    (messages_create : Anthropic -> create_args -> outcome reply_content)
    (CLIENT : Anthropic) (o1 o2 : list (string * json)) :
  truthy (dict_get o1 "prompt") = true ->
  truthy (dict_get o2 "prompt") = true ->
  dict_get o1 "completion" = dict_get o2 "completion" ->
  dict_get o1 "rubric" = dict_get o2 "rubric" ->
  evaluate_completion float_repr messages_create CLIENT (Return (JObject o1)) =
  evaluate_completion float_repr messages_create CLIENT (Return (JObject o2)).
Proof.
  intros H1 H2 Hc Hr. rewrite !evaluate_completion_unfold. cbn [py_get dict_get_of].
  cbv zeta. unfold eval_rejects. by rewrite H1, H2, Hc, Hr.
Qed.

Lemma eval_ignores_prompt_witness :
  let o1 := [("prompt", JString "Is lying wrong?"); ("completion", JString "c");
             ("rubric", JString "r")] in
  let o2 := [("rubric", JString "r"); ("prompt", JInt 7); ("completion", JString "c")] in
  (truthy (dict_get o1 "prompt") = true /\ truthy (dict_get o2 "prompt") = true /\
   dict_get o1 "completion" = dict_get o2 "completion" /\
   dict_get o1 "rubric" = dict_get o2 "rubric")
  /\ evaluate_completion Fixture.float_repr (Fixture.answering ["X"]) Fixture.CLIENT
       (Return (JObject o1)) =
     evaluate_completion Fixture.float_repr (Fixture.answering ["X"]) Fixture.CLIENT
       (Return (JObject o2)).
Proof.
  split; [repeat split|].
  apply (eval_ignores_prompt Fixture.float_repr (Fixture.answering ["X"]) Fixture.CLIENT
           [("prompt", JString "Is lying wrong?"); ("completion", JString "c");
            ("rubric", JString "r")]
           [("rubric", JString "r"); ("prompt", JInt 7); ("completion", JString "c")]);
    reflexivity.
Defined.

(** The composed prompt, piece by piece: the first segment holds the text of
    the situation, and the text after it holds the other five tags. *)
Lemma combined_prompt_shape (v : string) :
  exists following : string,
    combined_prompt v =
      (("Identify the ethical problem or dilemma in the following situation: "
          +:+ v +:+ ".")
         +:+ LF
         +:+ repr_tuple2
               ("Identify the ethical problem or dilemma in the following situation: {prompt}.",
                "<problem>"))
        +:+ LF +:+ following
    /\ forall tag, In tag (tail claimed_tags) -> is_substring tag following = true.
Proof.
  eexists. split; [vm_compute; reflexivity|].
  intros tag Hin. cbn in Hin.
  repeat (destruct Hin as [<-|Hin]; [vm_compute; reflexivity|]). destruct Hin.
Qed.

(** X10: an accepted [POST /eval] makes one call, to [claude-3-opus-20240229]
    with at most 256 tokens, temperature 0.2 and no system text; its one user
    message holds the completion inside the answer tags and the rubric inside
    the rubric tags, both as [str] gives them, with nothing escaped. *)
Theorem grading_call_shape
    (float_repr : spec_float -> string)
    (messages_create : Anthropic -> create_args -> outcome reply_content)
    (CLIENT : Anthropic) (o : list (string * json)) :
  truthy (dict_get o "prompt") = true ->
  truthy (dict_get o "completion") = true ->
  truthy (dict_get o "rubric") = true ->
  exists user_content : string,
    calls (trace (evaluate_completion float_repr messages_create CLIENT
                    (Return (JObject o)))) =
      [{| model := "claude-3-opus-20240229";
          max_tokens := 256;
          temperature := float_0_2;
          system := None;
          messages := [{| role := "user"; content := user_content |}] |}]
    /\ is_substring
         ("<answer>" +:+ py_str float_repr (dict_get o "completion") +:+ "</answer>")
         user_content = true
    /\ is_substring
         ("<rubric>" +:+ py_str float_repr (dict_get o "rubric") +:+ "</rubric>")
         user_content = true.
Proof.
  intros Hp Hc Hr. eexists. split; [|split].
  - rewrite evaluate_completion_accepted by done. cbv zeta.
    destruct (result (grade_completion _ _ _ _ _));
      cbn [trace fst]; rewrite !calls_app, grade_completion_calls; reflexivity.
  - assert (forall x, "    <answer>" +:+ x = "    " +:+ "<answer>" +:+ x) as -> by done.
    find_substring.
  - assert (forall x, "    <rubric>" +:+ x = "    " +:+ "<rubric>" +:+ x) as -> by done.
    find_substring.
Qed.

Lemma grading_call_shape_witness :
  let o := [("prompt", JString "p"); ("completion", JString "<b>yes</b>");
            ("rubric", JInt 3)] in
  (truthy (dict_get o "prompt") = true /\ truthy (dict_get o "completion") = true /\
   truthy (dict_get o "rubric") = true)
  /\ exists user_content : string,
       calls (trace (evaluate_completion Fixture.float_repr (Fixture.answering ["X"])
                       Fixture.CLIENT (Return (JObject o)))) =
         [{| model := "claude-3-opus-20240229";
             max_tokens := 256;
             temperature := float_0_2;
             system := None;
             messages := [{| role := "user"; content := user_content |}] |}]
       /\ is_substring "<answer><b>yes</b></answer>" user_content = true
       /\ is_substring "<rubric>3</rubric>" user_content = true.
Proof.
  split; [repeat split|].
  apply (grading_call_shape Fixture.float_repr (Fixture.answering ["X"]) Fixture.CLIENT
           [("prompt", JString "p"); ("completion", JString "<b>yes</b>");
            ("rubric", JInt 3)]); reflexivity.
Defined.

(** X11: [POST /analysis] with any situation Python takes as true, a text or
    not, makes one call, to [claude-3-haiku-20240307] with at most 2048
    tokens, temperature 0.2 and [SYSTEM_ROLE] as system text; its one user
    message holds [str] of the situation as it is, braces included, and each
    of the six tags. *)
Theorem analysis_call_shape
    (float_repr : spec_float -> string)
    (messages_create : Anthropic -> create_args -> outcome reply_content)
    (CLIENT : Anthropic) (o : list (string * json)) :
  truthy (dict_get o "situation") = true ->
  exists user_content : string,
    calls (trace (analyze_ethics float_repr messages_create CLIENT
                    (Return (JObject o)))) =
      [{| model := "claude-3-haiku-20240307";
          max_tokens := 2048;
          temperature := float_0_2;
          system := Some SYSTEM_ROLE;
          messages := [{| role := "user"; content := user_content |}] |}]
    /\ is_substring (py_str float_repr (dict_get o "situation")) user_content = true
    /\ (forall tag, In tag claimed_tags -> is_substring tag user_content = true).
Proof.
  intros Hs.
  exists (combined_prompt (py_str float_repr (dict_get o "situation"))).
  split; [by apply analyze_ethics_prompt|].
  destruct (combined_prompt_shape (py_str float_repr (dict_get o "situation")))
    as (following & -> & Htags).
  split.
  - do 2 apply is_substring_app_l. apply is_substring_app_r, is_substring_app_l.
    apply is_substring_refl.
  - intros tag [<-|Hin].
    + apply is_substring_app_l. do 2 apply is_substring_app_r. by vm_compute.
    + do 2 apply is_substring_app_r. by apply Htags.
Qed.

Lemma analysis_call_shape_witness :
  let o := [("situation", JString "Is {prompt} a word?")] in
  truthy (dict_get o "situation") = true
  /\ exists user_content : string,
       calls (trace (analyze_ethics Fixture.float_repr (Fixture.answering ["ok"])
                       Fixture.CLIENT (Return (JObject o)))) =
         [{| model := "claude-3-haiku-20240307";
             max_tokens := 2048;
             temperature := float_0_2;
             system := Some SYSTEM_ROLE;
             messages := [{| role := "user"; content := user_content |}] |}]
       /\ is_substring "Is {prompt} a word?" user_content = true
       /\ (forall tag, In tag claimed_tags -> is_substring tag user_content = true).
Proof.
  split; [reflexivity|].
  apply (analysis_call_shape Fixture.float_repr (Fixture.answering ["ok"]) Fixture.CLIENT
           [("situation", JString "Is {prompt} a word?")]); reflexivity.
Defined.

(** X12: when the reply to an accepted [POST /eval] has a block without a
    [text] attribute, the grading fails at the first such block: the detail
    is printed, and the response is 500 with [Error during grading: ] in
    front of the message of the [AttributeError]. *)
Theorem eval_textless_block_is_500
    (float_repr : spec_float -> string)
    (messages_create : Anthropic -> create_args -> outcome reply_content)
    (CLIENT : Anthropic) (o : list (string * json))
    (before : list string) (b : block) (rest : list block) :
  truthy (dict_get o "prompt") = true ->
  truthy (dict_get o "completion") = true ->
  truthy (dict_get o "rubric") = true ->
  text b = None ->
  messages_create CLIENT
    (grading_kwargs (build_grader_prompt float_repr (dict_get o "completion")
                       (dict_get o "rubric")))
  = Return (ContentList (map TextBlock before ++ b :: rest)) ->
  let run := evaluate_completion float_repr messages_create CLIENT (Return (JObject o)) in
  let message := "'" +:+ block_class b +:+ "' object has no attribute 'text'" in
  result run =
    Return {| body := PJson (JObject [("error",
                                       JString ("Error during grading: " +:+ message))]);
              status := 500 |}
  /\ In (Stdout ("Detailed error: " +:+ message)) (trace run).
Proof.
  intros Hp Hc Hr Hb Hreply run message. subst run message.
  rewrite evaluate_completion_accepted by done. cbv zeta.
  rewrite grade_completion_unfold. cbv zeta.
  rewrite Hreply, (mapM_block_text_stops _ _ _ Hb).
  split; [reflexivity|]. cbn. auto 10.
Qed.

Lemma eval_textless_block_is_500_witness :
  let o := [("prompt", JString "p"); ("completion", JString "c"); ("rubric", JString "r")] in
  let b := {| block_class := "ToolUseBlock"; text := None |} in
  (truthy (dict_get o "prompt") = true /\ truthy (dict_get o "completion") = true /\
   truthy (dict_get o "rubric") = true /\ text b = None)
  /\ result (evaluate_completion Fixture.float_repr
               (Fixture.replying (ContentList (map TextBlock ["a"] ++ b :: [])))
               Fixture.CLIENT (Return (JObject o))) =
     Return {| body := PJson (JObject
                 [("error",
                   JString ("Error during grading: "
                            +:+ "'ToolUseBlock' object has no attribute 'text'"))]);
               status := 500 |}.
Proof.
  split; [repeat split|].
  refine (proj1 (eval_textless_block_is_500 Fixture.float_repr
                   (Fixture.replying
                      (ContentList (map TextBlock ["a"]
                                      ++ {| block_class := "ToolUseBlock"; text := None |}
                                      :: [])))
                   Fixture.CLIENT
                   [("prompt", JString "p"); ("completion", JString "c");
                    ("rubric", JString "r")]
                   ["a"] {| block_class := "ToolUseBlock"; text := None |} []
                   _ _ _ _ _)); reflexivity.
Defined.

Lemma eval_failure_is_500_witness :
  let o := [("prompt", JString "p"); ("completion", JString "c"); ("rubric", JString "r")] in
  let e := Exception "RateLimitError" "Too many requests" in
  (truthy (dict_get o "prompt") = true /\ truthy (dict_get o "completion") = true /\
   truthy (dict_get o "rubric") = true)
  /\ result (evaluate_completion Fixture.float_repr (Fixture.failing e) Fixture.CLIENT
               (Return (JObject o))) =
     Return {| body := PJson (JObject
                 [("error", JString ("Error during grading: " +:+ "Too many requests"))]);
               status := 500 |}.
Proof.
  split; [repeat split|].
  refine (proj1 (eval_failure_is_500 Fixture.float_repr
                   (Fixture.failing (Exception "RateLimitError" "Too many requests"))
                   Fixture.CLIENT
                   [("prompt", JString "p"); ("completion", JString "c");
                    ("rubric", JString "r")]
                   (Exception "RateLimitError" "Too many requests") _ _ _ _));
    reflexivity.
Defined.

(** X14: when the [content] of the reply to an accepted [POST /eval] is not a
    list but a plain text, [grade_completion] passes it on as it is: the
    response is 200 with [{response: text}]. *)
Theorem eval_plain_text_reply
    (float_repr : spec_float -> string)
    (messages_create : Anthropic -> create_args -> outcome reply_content)
    (CLIENT : Anthropic) (o : list (string * json)) (reply : string) :
  truthy (dict_get o "prompt") = true ->
  truthy (dict_get o "completion") = true ->
  truthy (dict_get o "rubric") = true ->
  messages_create CLIENT
    (grading_kwargs (build_grader_prompt float_repr (dict_get o "completion")
                       (dict_get o "rubric")))
  = Return (ContentStr reply) ->
  result (evaluate_completion float_repr messages_create CLIENT (Return (JObject o))) =
    Return {| body := PJson (JObject [("response", JString reply)]); status := 200 |}.
Proof.
  intros Hp Hc Hr Hreply.
  rewrite evaluate_completion_accepted by done. cbv zeta.
  rewrite grade_completion_unfold. cbv zeta. by rewrite Hreply.
Qed.

Lemma eval_plain_text_reply_witness :
  let o := [("prompt", JString "p"); ("completion", JString "c"); ("rubric", JString "r")] in
  (truthy (dict_get o "prompt") = true /\ truthy (dict_get o "completion") = true /\
   truthy (dict_get o "rubric") = true)
  /\ result (evaluate_completion Fixture.float_repr
               (Fixture.replying (ContentStr "correct")) Fixture.CLIENT
               (Return (JObject o))) =
     Return {| body := PJson (JObject [("response", JString "correct")]);
               status := 200 |}.
Proof.
  split; [repeat split|].
  apply (eval_plain_text_reply Fixture.float_repr
           (Fixture.replying (ContentStr "correct")) Fixture.CLIENT
           [("prompt", JString "p"); ("completion", JString "c"); ("rubric", JString "r")]
           "correct"); reflexivity.
Defined.

(** ** The two loggers *)

Lemma records_of_app (name : string) (t1 t2 : list event) :
  records_of name (t1 ++ t2) = records_of name t1 ++ records_of name t2.
Proof. unfold records_of. apply omap_app. Qed.

Lemma ethical_analysis_records
    (float_repr : spec_float -> string)
    (messages_create : Anthropic -> create_args -> outcome reply_content)
    (prompt : json) (c : Anthropic) :
  records_of "root" (trace (ethical_analysis float_repr messages_create prompt c)) =
  records_of "gunicorn.error"
    (trace (ethical_analysis float_repr messages_create prompt c)).
Proof.
  rewrite ethical_analysis_unfold. cbv zeta.
  destruct (messages_create c _) as [response|e]; [|reflexivity].
  destruct (result (get_completion response)); reflexivity.
Qed.

Lemma grade_completion_records
    (float_repr : spec_float -> string)
    (messages_create : Anthropic -> create_args -> outcome reply_content)
    (CLIENT : Anthropic) (output rubric : json) (name : string) :
  records_of name
    (trace (grade_completion float_repr messages_create CLIENT output rubric)) = [].
Proof.
  rewrite grade_completion_unfold. cbv zeta.
  destruct (messages_create CLIENT _) as [[blocks|s]|e]; [| reflexivity..].
  destruct (result (mapM block_text blocks)); reflexivity.
Qed.

(** X15: whatever the request and whatever the hosted model does, the root
    logger and the [gunicorn.error] logger receive the same records, level
    and message, in the same order, from [POST /analysis], from [POST /eval]
    and from the front end route. *)
Theorem loggers_agree
    (float_repr : spec_float -> string)
    (messages_create : Anthropic -> create_args -> outcome reply_content)
    (CLIENT : Anthropic) (request_json : outcome json)
    (static_folder : string) (os_path_exists : string -> bool)
    (send_from_directory : string -> string -> response) (path : string) :
  (let t := trace (analyze_ethics float_repr messages_create CLIENT request_json) in
   records_of "root" t = records_of "gunicorn.error" t)
  /\ (let t := trace (evaluate_completion float_repr messages_create CLIENT
                        request_json) in
      records_of "root" t = records_of "gunicorn.error" t)
  /\ (let t := trace (serve static_folder os_path_exists send_from_directory path) in
      records_of "root" t = records_of "gunicorn.error" t).
Proof.
  split; [|split]; cbv zeta.
  - rewrite analyze_ethics_unfold.
    destruct request_json as [data|e]; [|reflexivity].
    destruct (py_get data "situation") as [situation|e]; [|reflexivity].
    destruct (truthy situation); [|reflexivity].
    cbv zeta. destruct (result (ethical_analysis _ _ _ _));
      cbn [trace fst]; rewrite !records_of_app, ethical_analysis_records; reflexivity.
  - rewrite evaluate_completion_unfold.
    destruct request_json as [data|e]; [|reflexivity].
    destruct (py_get data "prompt"); [|reflexivity].
    cbv zeta. destruct (eval_rejects _ _ _); [reflexivity|].
    destruct (result (grade_completion _ _ _ _ _));
      cbn [trace fst]; rewrite !records_of_app, !grade_completion_records; reflexivity.
  - unfold serve, logger, logging. rewrite !bind_tell.
    by destruct (negb (String.eqb path "") && _).
Qed.
